(** * hotfix-kvadra-touchpad: a model of [module.c]

    The kernel module detects the Intel I2C host controllers of KVADRA
    notebooks on the PCI bus, hooks a counting handler on their (shared)
    interrupt lines and shows the counters in a /proc entry.

    The module's globals, the part of the kernel it talks to (the irq
    action table, the /proc entry, the seq_file being filled) and the
    history of kernel calls form one [state] record, threaded through a
    small monad whose results also report an access outside
    [i2c_controller_list] and a loop that used up its fuel.  The [pr_info]
    and [dmi_get_system_info] calls only write to the kernel log, which the
    model does not keep. *)

From stdpp Require Import list strings pretty.

Local Open Scope Z_scope.

(** ** C integers *)

(** Conversion to [int] (two's complement, 32 bits), as gcc does it. *)
Definition int_wrap (z : Z) : Z := (z + 2 ^ 31) `mod` 2 ^ 32 - 2 ^ 31.

(** Conversion to [unsigned int]. *)
Definition uint_wrap (z : Z) : Z := z `mod` 2 ^ 32.

Definition INT_MAX : Z := 2 ^ 31 - 1.
Definition INT_MIN : Z := - 2 ^ 31.

(** ** Constants of the kernel headers *)

(** <linux/pci_ids.h> *)
Definition PCI_VENDOR_ID_INTEL : Z := 0x8086.
(** <linux/pci.h>: [(~0)], matches every id. *)
Definition PCI_ANY_ID : Z := 0xffffffff.
(** <asm-generic/errno-base.h>, <asm-generic/errno.h> *)
Definition ENOENT : Z := 2.
Definition ENOBUFS : Z := 105.
(** <linux/interrupt.h> *)
Definition IRQF_SHARED : Z := 0x80.

(** <linux/irqreturn.h> *)
Inductive irqreturn_t : Set :=
| IRQ_NONE
| IRQ_HANDLED
| IRQ_WAKE_THREAD.

(** The fields of [struct pci_dev] (<linux/pci.h>) the module reads:
    [unsigned short vendor, device; unsigned int irq]. *)
Record pci_dev : Set := Pci_dev {
  dev_vendor : Z;
  dev_device : Z;
  dev_irq : Z
}.

(** ** The module's data *)

(** [atomic_t] is a 32-bit [int] counter that wraps around. *)
Record i2c_controller : Set := I2c_controller {
  irq : Z;
  isr_count : Z
}.

Definition I2C_CONTROLLER_MAX : Z := 16.

(** Calls into the interrupt and procfs services, as the kernel sees them.
    A context pointer [&i2c_controller_list[i]] is the index [i].
    [FreeIrq line dev_id found]: [found] tells whether the kernel had an
    action for [(line, dev_id)]; when it has none, [free_irq] complains
    (Trying to free already-free IRQ) and changes nothing. *)
Inductive call : Set :=
| RequestIrq (line flags dev_id rc : Z)
| FreeIrq (line dev_id : Z) (found : bool)
| ProcCreate (ok : bool)
| ProcRemove.

Record state : Set := State {
  i2c_controller_list : list i2c_controller;
  i2c_controller_count : Z;
  (** the actions this module has registered: (line, dev_id) *)
  irq_actions : list (Z * Z);
  (** whether the /proc entry exists *)
  proc_entry : bool;
  (** the text of the seq_file that [proc_show] fills *)
  seq_file : string;
  (** the calls made so far, oldest first *)
  calls : list call
}.

(** Static storage is zero-initialised when the module is loaded. *)
Definition boot : state :=
  State (replicate (Z.to_nat I2C_CONTROLLER_MAX) (I2c_controller 0 0)) 0
        [] false "" [].

(** What the machine around the module decides: the devices on the PCI bus
    in the order the kernel lists them, the errno (if any) with which
    [request_irq] refuses a line for a context, and whether
    [proc_create_single] returns an entry. *)
Record platform : Type := Platform {
  pci_bus : list pci_dev;
  irq_refused : Z → Z → option positive;
  proc_ok : bool
}.

(** ** The monad *)

Inductive result (A : Type) : Type :=
| Done (a : A) (s : state)
| Undefined        (* an access outside [i2c_controller_list] *)
| Diverge.         (* the fuel of a loop ran out *)
Arguments Done {A} a s.
Arguments Undefined {A}.
Arguments Diverge {A}.

Definition M (A : Type) : Type := state → result A.

Definition ret {A} (a : A) : M A := fun s => Done a s.

Definition bind {A B} (m : M A) (k : A → M B) : M B :=
  fun s => match m s with
           | Done a s' => k a s'
           | Undefined => Undefined
           | Diverge => Diverge
           end.

Notation "'do' x <- m ; k" := (bind m (fun x => k))
  (at level 10, x name, m at level 100, k at level 200,
   format "'[v' 'do'  x  <-  m ; '/' k ']'").
Notation "'run' m ; k" := (bind m (fun _ => k))
  (at level 10, m at level 100, k at level 200,
   format "'[v' 'run'  m ; '/' k ']'").

Definition get_count : M Z := fun s => Done (i2c_controller_count s) s.

Definition set_count (n : Z) : M unit := fun s =>
  Done tt (State (i2c_controller_list s) n (irq_actions s) (proc_entry s)
                 (seq_file s) (calls s)).

Definition set_list (l : list i2c_controller) (s : state) : state :=
  State l (i2c_controller_count s) (irq_actions s) (proc_entry s)
        (seq_file s) (calls s).

(** [i2c_controller_list[i]], read. *)
Definition controller (i : Z) : M i2c_controller := fun s =>
  if decide (0 ≤ i) then
    match i2c_controller_list s !! Z.to_nat i with
    | Some c => Done c s
    | None => Undefined
    end
  else Undefined.

(** [i2c_controller_list[i].irq = v] *)
Definition store_irq (i v : Z) : M unit := fun s =>
  if decide (0 ≤ i) then
    match i2c_controller_list s !! Z.to_nat i with
    | Some c =>
        Done tt (set_list (<[Z.to_nat i := I2c_controller v (isr_count c)]>
                             (i2c_controller_list s)) s)
    | None => Undefined
    end
  else Undefined.

(** [atomic_inc(&i2c_controller_list[i].isr_count)]: one indivisible
    read-modify-write of the counter. *)
Definition atomic_inc (i : Z) : M unit := fun s =>
  if decide (0 ≤ i) then
    match i2c_controller_list s !! Z.to_nat i with
    | Some c =>
        Done tt (set_list (<[Z.to_nat i :=
                              I2c_controller (irq c) (int_wrap (isr_count c + 1))]>
                             (i2c_controller_list s)) s)
    | None => Undefined
    end
  else Undefined.

(** [atomic_read(&c->isr_count)] *)
Definition atomic_read (c : i2c_controller) : Z := isr_count c.

(** ** The kernel services *)

Definition pci_match_id (id field : Z) : bool :=
  (id =? PCI_ANY_ID) || (id =? field).

Definition pci_match (vendor device : Z) (d : pci_dev) : bool :=
  pci_match_id vendor (dev_vendor d) && pci_match_id device (dev_device d).

(** The first device of [l] with the ids asked for, with the devices after
    it: a cursor into the bus list; [[]] is [NULL]. *)
Fixpoint pci_scan (vendor device : Z) (l : list pci_dev) : list pci_dev :=
  match l with
  | [] => []
  | d :: rest =>
      if pci_match vendor device d then l else pci_scan vendor device rest
  end.

(** [pci_get_device(vendor, device, from)]: the search starts at the head of
    the bus list when [from] is [NULL], after [from] otherwise. *)
Definition pci_get_device (pf : platform) (vendor device : Z)
    (from : list pci_dev) : list pci_dev :=
  match from with
  | [] => pci_scan vendor device (pci_bus pf)
  | _ :: after => pci_scan vendor device after
  end.

Definition log_call (c : call) (s : state) : state :=
  State (i2c_controller_list s) (i2c_controller_count s) (irq_actions s)
        (proc_entry s) (seq_file s) (calls s ++ [c]).

Definition set_actions (a : list (Z * Z)) (s : state) : state :=
  State (i2c_controller_list s) (i2c_controller_count s) a
        (proc_entry s) (seq_file s) (calls s).

Definition set_proc (b : bool) (s : state) : state :=
  State (i2c_controller_list s) (i2c_controller_count s) (irq_actions s)
        b (seq_file s) (calls s).

(** [request_irq(line, irq_handler, flags, MODULE_IRQ_NAME, dev_id)] *)
Definition request_irq (pf : platform) (line flags dev_id : Z) : M Z :=
  fun s =>
    match irq_refused pf line dev_id with
    | None =>
        Done 0 (log_call (RequestIrq line flags dev_id 0)
                  (set_actions (irq_actions s ++ [(line, dev_id)]) s))
    | Some e =>
        Done (Z.neg e) (log_call (RequestIrq line flags dev_id (Z.neg e)) s)
    end.

(** Drops the first occurrence of [a]. *)
Fixpoint remove_action (a : Z * Z) (l : list (Z * Z)) : list (Z * Z) :=
  match l with
  | [] => []
  | b :: l' => if decide (a = b) then l' else b :: remove_action a l'
  end.

(** [free_irq(line, dev_id)] *)
Definition free_irq (line dev_id : Z) : M unit := fun s =>
  Done tt (log_call (FreeIrq line dev_id
                       (bool_decide ((line, dev_id) ∈ irq_actions s)))
             (set_actions (remove_action (line, dev_id) (irq_actions s)) s)).

(** [proc_create_single(MODULE_PROCFS_NAME, 0644, NULL, proc_show)]; the
    result tells whether the entry returned is not [NULL]. *)
Definition proc_create_single (pf : platform) : M bool := fun s =>
  Done (proc_ok pf)
       (log_call (ProcCreate (proc_ok pf))
          (if proc_ok pf then set_proc true s else s)).

(** [remove_proc_entry(MODULE_PROCFS_NAME, NULL)] *)
Definition remove_proc_entry : M unit := fun s =>
  Done tt (log_call ProcRemove (set_proc false s)).

(** The line feed. *)
Definition newline : string :=
  String (Ascii.Ascii false true false true false false false false) "".

(** [seq_printf(m, "IRQ %d: %d\n", a, b)] *)
Definition seq_printf_irq (a b : Z) : M unit := fun s =>
  Done tt (State (i2c_controller_list s) (i2c_controller_count s)
                 (irq_actions s) (proc_entry s)
                 (seq_file s +:+ "IRQ " +:+ pretty a +:+ ": " +:+ pretty b
                    +:+ newline)
                 (calls s)).

(** ** The module *)

(** The device ids of the [switch] in [i2c_controller_detect]. *)
Definition kvadra_i2c (device : Z) : bool :=
  match device with
  | 0x51e8 | 0x51e9 | 0x51c5 | 0x51c6 => true
  | _ => false
  end.

(** The [while (dev != NULL)] loop of [i2c_controller_detect]; [dev] is the
    cursor into the bus list. *)
Fixpoint detect_loop (pf : platform) (fuel : nat) (dev : list pci_dev)
    : M Z :=
  match dev with
  | [] => ret 0
  | d :: _ =>
      match fuel with
      | O => fun _ => Diverge
      | S fuel' =>
          let next :=
            detect_loop pf fuel'
              (pci_get_device pf PCI_VENDOR_ID_INTEL PCI_ANY_ID dev) in
          if kvadra_i2c (dev_device d) then
            do n <- get_count;
            run store_irq n (int_wrap (dev_irq d));
            run set_count (int_wrap (n + 1));
            do n' <- get_count;
            if n' =? I2C_CONTROLLER_MAX then ret (- ENOBUFS) else next
          else next
      end
  end.

(** [i2c_controller_detect] detects the I2C controllers and populates
    [i2c_controller_list]; it returns 0 or -ENOBUFS.  The loop runs once
    for every Intel device at most, so the length of the bus is fuel
    enough. *)
Definition i2c_controller_detect (pf : platform) : M Z :=
  detect_loop pf (length (pci_bus pf))
    (pci_get_device pf PCI_VENDOR_ID_INTEL PCI_ANY_ID []).

(** [irq_handler], the interrupt service routine installed for each
    controller; [p] is its context. *)
Definition irq_handler (p : Z) : M irqreturn_t :=
  run atomic_inc p;
  ret IRQ_HANDLED.

(** [for (i = ...; i < i2c_controller_count; i ++) body], where [body]
    answers [Some rc] when it returns [rc] from the function. *)
Fixpoint for_controllers (fuel : nat) (i : Z) (body : Z → M (option Z))
    : M (option Z) :=
  do n <- get_count;
  if i <? n then
    match fuel with
    | O => fun _ => Diverge
    | S fuel' =>
        do r <- body i;
        match r with
        | Some rc => ret (Some rc)
        | None => for_controllers fuel' (int_wrap (i + 1)) body
        end
    end
  else ret None.

(** [release_interrupts]: the loop runs to [i2c_controller_count]; the
    parameter [count] is not used. *)
Definition release_interrupts (count : Z) : M unit :=
  do n <- get_count;
  run for_controllers (Z.to_nat n) 0
        (fun i =>
           do c <- controller i;
           run free_irq (uint_wrap (irq c)) i;
           ret None);
  ret tt.

(** [hook_interrupts] installs the handler for each controller of the
    list; it returns 0 or the error of [request_irq]. *)
Definition hook_interrupts (pf : platform) : M Z :=
  do n <- get_count;
  do r <- for_controllers (Z.to_nat n) 0
            (fun i =>
               do c <- controller i;
               do rc <- request_irq pf (uint_wrap (irq c)) IRQF_SHARED i;
               if rc <? 0 then
                 run release_interrupts i;
                 ret (Some rc)
               else ret None);
  ret (default 0 r).

(** [proc_show] handles a read of the /proc entry. *)
Definition proc_show : M Z :=
  do n <- get_count;
  run for_controllers (Z.to_nat n) 0
        (fun i =>
           do c <- controller i;
           run seq_printf_irq (irq c) (atomic_read c);
           ret None);
  ret 0.

(** [mod_init], the module's initialisation. *)
Definition mod_init (pf : platform) : M Z :=
  do rc <- i2c_controller_detect pf;
  if rc <? 0 then ret rc
  else
    do ent <- proc_create_single pf;
    if negb ent then ret (- ENOENT)
    else
      do rc <- hook_interrupts pf;
      if rc <? 0 then
        run remove_proc_entry;
        ret rc
      else ret 0.

(** [mod_exit], the module's cleanup. *)
Definition mod_exit : M unit :=
  do n <- get_count;
  run release_interrupts n;
  remove_proc_entry.

(** ** Sample buses and platforms *)

(** A KVADRA controller on the interrupt line [line]. *)
Definition i2c (line : Z) : pci_dev := Pci_dev PCI_VENDOR_ID_INTEL 0x51e8 line.

(** Three KVADRA controllers, two of them on one line, an Intel device with
    another id and a device of another vendor with a listed id. *)
Definition sample_bus : list pci_dev :=
  [ Pci_dev PCI_VENDOR_ID_INTEL 0x51e8 27;
    Pci_dev PCI_VENDOR_ID_INTEL 0x1234 5;
    Pci_dev 0x10de 0x51e8 6;
    Pci_dev PCI_VENDOR_ID_INTEL 0x51c6 40;
    Pci_dev PCI_VENDOR_ID_INTEL 0x51e9 27 ].

(** Every line is granted and the /proc entry is created. *)
Definition friendly (bus : list pci_dev) : platform :=
  Platform bus (fun _ _ => None) true.

(** Every line is granted but the one asked for the context [k], which is
    refused with EBUSY. *)
Definition busy_at (k : Z) (bus : list pci_dev) : platform :=
  Platform bus (fun _ dev_id => if dev_id =? k then Some 16%positive else None)
           true.

(** ** Well-formed states and the registry *)

(** The array has its sixteen slots and the count is within them. *)
Definition wf (s : state) : Prop :=
  length (i2c_controller_list s) = Z.to_nat I2C_CONTROLLER_MAX ∧
  0 ≤ i2c_controller_count s ≤ I2C_CONTROLLER_MAX.

(** The registry: the live entries of the array. *)
Definition registry (s : state) : list i2c_controller :=
  take (Z.to_nat (i2c_controller_count s)) (i2c_controller_list s).

(** What [request_irq] and [free_irq] are called with for the entries
    [l], the first of which has index [i]: the line and the context. *)
Fixpoint handles_from (i : Z) (l : list i2c_controller) : list (Z * Z) :=
  match l with
  | [] => []
  | c :: l' => (uint_wrap (irq c), i) :: handles_from (i + 1) l'
  end.

Definition handles (s : state) : list (Z * Z) := handles_from 0 (registry s).

(** Two states that differ at most in what the kernel knows of the module:
    the globals of the module and the seq_file are the same. *)
Definition same_data (s s' : state) : Prop :=
  i2c_controller_list s' = i2c_controller_list s ∧
  i2c_controller_count s' = i2c_controller_count s ∧
  seq_file s' = seq_file s.

(** The [free_irq] call for a handle, when the first [k] handles are the
    registered ones. *)
Definition free_call (k : nat) (a : Z * Z) : call :=
  FreeIrq a.1 a.2 (bool_decide (a.2 < Z.of_nat k)).

(** The [request_irq] call for a handle, and the answer of the platform. *)
Definition request_call (rc : Z) (a : Z * Z) : call :=
  RequestIrq a.1 IRQF_SHARED a.2 rc.

Definition refused (pf : platform) (a : Z * Z) : option positive :=
  irq_refused pf a.1 a.2.

(** The calls of a [hook_interrupts] that is refused the handle [a] of
    index [k] with errno [e], on a registry with the handles [hs]. *)
Definition refused_calls (hs : list (Z * Z)) (k : nat) (a : Z * Z)
    (e : positive) : list call :=
  map (request_call 0) (take k hs) ++ [request_call (Z.neg e) a] ++
  map (free_call k) hs.

(** ** Discovery, as the specification words it *)

(** The devices [i2c_controller_detect] is after: the vendor is Intel and
    the device id is one of the four of the [switch]. *)
Definition wanted (d : pci_dev) : Prop :=
  dev_vendor d = PCI_VENDOR_ID_INTEL ∧
  dev_device d ∈ [0x51e8; 0x51e9; 0x51c5; 0x51c6].

Global Instance wanted_dec d : Decision (wanted d).
Proof. unfold wanted. apply _. Defined.

(** The record a device gets: its interrupt line, as an [int], and a
    counter that was never touched. *)
Definition new_controller (d : pci_dev) : i2c_controller :=
  I2c_controller (int_wrap (dev_irq d)) 0.

(** The array once the devices [pre] have been appended to the array of
    [boot]. *)
Definition filled (pre : list pci_dev) : list i2c_controller :=
  map new_controller pre ++
  replicate (Z.to_nat I2C_CONTROLLER_MAX - length pre) (I2c_controller 0 0).

(** The iterations of the loop of [i2c_controller_detect] for the wanted
    devices [ms], the only ones that do something. *)
Fixpoint append_all (ms : list pci_dev) : M Z :=
  match ms with
  | [] => ret 0
  | d :: ms' =>
      do n <- get_count;
      run store_irq n (int_wrap (dev_irq d));
      run set_count (int_wrap (n + 1));
      do n' <- get_count;
      if n' =? I2C_CONTROLLER_MAX then ret (- ENOBUFS) else append_all ms'
  end.

(** What [i2c_controller_detect] returns when it meets the wanted devices
    [ms], and the state it leaves from [boot]. *)
Definition detect_rc (ms : list pci_dev) : Z :=
  if decide (length ms < Z.to_nat I2C_CONTROLLER_MAX)%nat then 0 else - ENOBUFS.

Definition detected (ms : list pci_dev) : state :=
  let kept := take (Z.to_nat I2C_CONTROLLER_MAX) ms in
  State (filled kept) (Z.of_nat (length kept)) [] false "" [].

(** ** The report, as the specification words it *)

(** One line of the report: [IRQ <identifier>: <counter>], both in
    decimal, and a line feed. *)
Definition report_line (c : i2c_controller) : string :=
  "IRQ " +:+ pretty (irq c) +:+ ": " +:+ pretty (isr_count c) +:+ newline.

Definition report (l : list i2c_controller) : string :=
  foldr (λ c text, report_line c +:+ text) "" l.

Definition set_seq_file (text : string) (s : state) : state :=
  State (i2c_controller_list s) (i2c_controller_count s) (irq_actions s)
        (proc_entry s) text (calls s).

(** ** The life of the module *)

(** Nothing of the module is left in the kernel. *)
Definition unloaded (s : state) : Prop :=
  irq_actions s = [] ∧ proc_entry s = false.

(** The /proc entry exists and a handler is registered for every entry of
    the registry, and for nothing else. *)
Definition active (s : state) : Prop :=
  irq_actions s = handles s ∧ proc_entry s = true.

(** What can run once discovery is over. *)
Inductive operation : Type :=
| Interrupt (p : Z)              (* [irq_handler] with [&i2c_controller_list[p]] *)
| Read                           (* [proc_show] *)
| Hook (pf : platform)           (* [hook_interrupts] *)
| Release (count : Z)            (* [release_interrupts] *)
| CreateEntry (pf : platform)    (* [proc_create_single] *)
| RemoveEntry                    (* [remove_proc_entry] *)
| Unload.                        (* [mod_exit] *)

Definition perform (o : operation) : M unit :=
  match o with
  | Interrupt p => run irq_handler p; ret tt
  | Read => run proc_show; ret tt
  | Hook pf => run hook_interrupts pf; ret tt
  | Release count => release_interrupts count
  | CreateEntry pf => run proc_create_single pf; ret tt
  | RemoveEntry => remove_proc_entry
  | Unload => mod_exit
  end.

(** The context of an interrupt points into [i2c_controller_list], as the
    contexts [hook_interrupts] registers do. *)
Definition in_array (o : operation) : Prop :=
  match o with
  | Interrupt p => 0 ≤ p < I2C_CONTROLLER_MAX
  | _ => True
  end.

Fixpoint perform_all (os : list operation) : M unit :=
  match os with
  | [] => ret tt
  | o :: os' => run perform o; perform_all os'
  end.

(** ** Interrupts on several processors *)

(** The handler runs on any processor at any time.  A processor is the
    sequence of contexts it runs [irq_handler] with; since the handler is
    one [atomic_inc], an execution of the processors is an interleaving of
    their sequences. *)
Inductive interleaving : list (list Z) → list Z → Prop :=
| interleaving_done cpus :
    Forall (λ cpu, cpu = []) cpus → interleaving cpus []
| interleaving_step before p cpu after sched :
    interleaving (before ++ cpu :: after) sched →
    interleaving (before ++ (p :: cpu) :: after) (p :: sched).

Fixpoint run_handlers (sched : list Z) : M unit :=
  match sched with
  | [] => ret tt
  | p :: sched' => run irq_handler p; run_handlers sched'
  end.

(** How many of the interrupts [l] are for the record [p]. *)
Definition hits (p : Z) (l : list Z) : nat := length (filter (λ q, q = p) l).

(** ** Sample states *)

(** The state after a load on a bus with the controllers of lines 27 and
    40. *)
Definition loaded_two : state :=
  State (filled [i2c 27; i2c 40]) 2 [(27, 0); (40, 1)] true ""
        [ProcCreate true; RequestIrq 27 IRQF_SHARED 0 0;
         RequestIrq 40 IRQF_SHARED 1 0].

(** A registry with the lines 5 and 9, counted 3 and 0 times. *)
Definition two_lines : state :=
  State (I2c_controller 5 3 :: I2c_controller 9 0 ::
           replicate 14 (I2c_controller 0 0))
        2 [(5, 0); (9, 1)] true "" [].

(** ** Further notions *)

(** A context that points into [i2c_controller_list]. *)
Definition valid_context (q : Z) : Prop := 0 ≤ q < I2C_CONTROLLER_MAX.

(** The [irq] of a device is an [unsigned int]. *)
Definition line_ok (d : pci_dev) : Prop := 0 ≤ dev_irq d < 2 ^ 32.

(** What [atomic_inc] makes of a counter. *)
Definition bump (n : Z) : Z := int_wrap (n + 1).

(** The record of index [i] after the interrupts [sched]: the same line,
    the counter incremented once for every interrupt for that record. *)
Definition counted (sched : list Z) (i : nat) (c : i2c_controller)
    : i2c_controller :=
  I2c_controller (irq c) (Nat.iter (hits (Z.of_nat i) sched) bump (isr_count c)).

(** The machine of [pf], with the devices [bus] ahead of its own on the
    bus. *)
Definition behind (bus : list pci_dev) (pf : platform) : platform :=
  Platform (bus ++ pci_bus pf) (irq_refused pf) (proc_ok pf).


(** The state after a load that succeeded on a machine that grants every
    line, with the wanted devices of [bus] in the registry. *)
Definition detected_hooked (bus : list pci_dev) : state :=
  let s := detected (filter wanted bus) in
  State (i2c_controller_list s) (i2c_controller_count s) (handles s) true ""
        (ProcCreate true :: map (request_call 0) (handles s)).

(** The [free_irq] call for a handle, when [acts] are the actions
    registered. *)
Definition free_call_in (acts : list (Z * Z)) (a : Z * Z) : call :=
  FreeIrq a.1 a.2 (bool_decide (a ∈ acts)).

(** The state after a load on the sample bus in which the handlers of the
    first and the third controller only are registered, the third first. *)
Definition half_hooked : state :=
  State (i2c_controller_list (detected (filter wanted sample_bus))) 3
        [(27, 2); (27, 0)] true "" [].

(** * Proofs *)

Lemma bind_Done {A B} (m : M A) (k : A → M B) s a s' :
  m s = Done a s' → bind m k s = k a s'.
Proof. unfold bind. by intros ->. Qed.

(** ** Arithmetic of the conversions *)

Lemma int_wrap_small (z : Z) : INT_MIN ≤ z ≤ INT_MAX → int_wrap z = z.
Proof.
  unfold int_wrap, INT_MIN, INT_MAX. intros H.
  rewrite Z.mod_small; lia.
Qed.

Lemma int_wrap_range (z : Z) : INT_MIN ≤ int_wrap z ≤ INT_MAX.
Proof.
  unfold int_wrap, INT_MIN, INT_MAX.
  pose proof (Z.mod_pos_bound (z + 2 ^ 31) (2 ^ 32)). lia.
Qed.

(** An [unsigned int] stored in an [int] and converted back is unchanged. *)
Lemma uint_wrap_int_wrap (z : Z) : uint_wrap (int_wrap z) = uint_wrap z.
Proof.
  unfold uint_wrap, int_wrap.
  rewrite <- Zminus_mod_idemp_l, Z.mod_mod by lia.
  rewrite Zminus_mod_idemp_l. f_equal. lia.
Qed.

Lemma uint_wrap_small (z : Z) : 0 ≤ z < 2 ^ 32 → uint_wrap z = z.
Proof. intros H. unfold uint_wrap. rewrite Z.mod_small; lia. Qed.

Lemma int_wrap_add (a b : Z) : int_wrap (int_wrap a + b) = int_wrap (a + b).
Proof.
  unfold int_wrap. f_equal.
  replace ((a + 2 ^ 31) `mod` 2 ^ 32 - 2 ^ 31 + b + 2 ^ 31)
    with ((a + 2 ^ 31) `mod` 2 ^ 32 + b) by lia.
  rewrite Zplus_mod_idemp_l. f_equal. lia.
Qed.

(** ** Well-formed states *)

Lemma same_data_refl s : same_data s s.
Proof. by repeat split. Qed.

Lemma same_data_trans s1 s2 s3 :
  same_data s1 s2 → same_data s2 s3 → same_data s1 s3.
Proof. unfold same_data. intros (? & ? & ?) (? & ? & ?). repeat split; congruence. Qed.

Lemma same_data_wf s s' : same_data s s' → wf s → wf s'.
Proof. unfold same_data, wf. intros (-> & -> & _). done. Qed.

Lemma same_data_handles s s' : same_data s s' → handles s' = handles s.
Proof. unfold same_data, handles, registry. by intros (-> & -> & _). Qed.

Lemma length_handles_from i l : length (handles_from i l) = length l.
Proof. revert i. induction l as [|c l IH]; intros i; simpl; [done|]. by rewrite IH. Qed.

Lemma lookup_handles_from i l (j : nat) :
  handles_from i l !! j = (λ c, (uint_wrap (irq c), i + Z.of_nat j)) <$> l !! j.
Proof.
  revert i j. induction l as [|c l IH]; intros i j; [done|].
  destruct j as [|j]; simpl.
  - do 2 f_equal. lia.
  - rewrite IH. destruct (l !! j); simpl; [|done]. do 2 f_equal. lia.
Qed.

Lemma length_registry s : wf s → length (registry s) = Z.to_nat (i2c_controller_count s).
Proof.
  unfold wf, registry. intros [Hl Hc]. rewrite length_take, Hl. lia.
Qed.

Lemma length_handles s : wf s → length (handles s) = Z.to_nat (i2c_controller_count s).
Proof. intros H. unfold handles. by rewrite length_handles_from, length_registry. Qed.

(** ** The loop over the registry *)

Lemma controller_live s i :
  wf s → 0 ≤ i < i2c_controller_count s →
  ∃ c, controller i s = Done c s ∧
       i2c_controller_list s !! Z.to_nat i = Some c ∧
       handles s !! Z.to_nat i = Some (uint_wrap (irq c), i).
Proof.
  intros [Hl Hc] Hi. unfold controller.
  destruct (lookup_lt_is_Some_2 (i2c_controller_list s) (Z.to_nat i)) as [c Hc'].
  { rewrite Hl. lia. }
  exists c. rewrite decide_True by lia. rewrite Hc'. repeat split.
  unfold handles, registry. rewrite lookup_handles_from, lookup_take_lt by lia.
  rewrite Hc'. simpl. do 2 f_equal. lia.
Qed.

(** The side conditions of the loop rule on a well-formed state: the count
    is within the array, hence within [int]. *)
Ltac count_bounds :=
  repeat match goal with x := _ : Z |- _ => subst x end;
  match goal with
  | Hwf : wf _ |- _ =>
      destruct Hwf as [_ ?]; unfold INT_MAX, I2C_CONTROLLER_MAX in *; lia
  end.

(** A loop invariant rule: [I i] holds before the iteration with index [i],
    [Q rc] when the body returns [rc] from the function. *)
Lemma for_controllers_inv (n : Z) (I : Z → state → Prop)
    (Q : Z → state → Prop) (body : Z → M (option Z)) :
  n ≤ INT_MAX →
  (∀ i s, I i s → i2c_controller_count s = n) →
  (∀ i s, 0 ≤ i < n → I i s →
     ∃ r s', body i s = Done r s' ∧
             match r with None => I (i + 1) s' | Some rc => Q rc s' end) →
  ∀ fuel i s, 0 ≤ i ≤ n → (Z.to_nat (n - i) ≤ fuel)%nat → I i s →
    ∃ r s', for_controllers fuel i body s = Done r s' ∧
            match r with None => I n s' | Some rc => Q rc s' end.
Proof.
  intros Hn Hcount Hbody fuel.
  induction fuel as [|fuel IH]; intros i s Hi Hfuel HI.
  - assert (i = n) as -> by lia.
    exists None, s. split; [|done].
    simpl. unfold bind, get_count. rewrite (Hcount _ _ HI).
    by rewrite Z.ltb_irrefl.
  - simpl. unfold bind at 1. unfold get_count. rewrite (Hcount _ _ HI).
    destruct (Z.ltb_spec i n) as [Hlt|Hge].
    + destruct (Hbody i s) as (r & s' & Hr & Hpost); [lia|done|].
      unfold bind. rewrite Hr. destruct r as [rc|].
      * by exists (Some rc), s'.
      * rewrite int_wrap_small by (unfold INT_MIN, INT_MAX in *; lia).
        apply IH; [lia|lia|done].
    + assert (i = n) as -> by lia. by exists None, s.
Qed.

(** ** [release_interrupts] *)

Lemma remove_action_drop (hs : list (Z * Z)) (k i : nat) a :
  hs !! i = Some a →
  remove_action a (drop i (take k hs)) = drop (S i) (take k hs) ∧
  bool_decide (a ∈ drop i (take k hs)) = bool_decide (i < k)%nat.
Proof.
  intros Ha. destruct (decide (i < k)%nat) as [Hlt|Hge].
  - assert (take k hs !! i = Some a) as Ht by (by rewrite lookup_take_lt).
    rewrite (drop_S _ _ _ Ht). simpl. rewrite decide_True by done.
    split; [done|]. apply bool_decide_ext. split; [done|]. intros _. left.
  - rewrite !drop_ge by (rewrite length_take; lia). simpl. split; [done|].
    by rewrite bool_decide_eq_false_2.
Qed.

(** When the actions registered are those of the first [k] entries,
    [release_interrupts] ends with none registered, after one [free_irq] for
    every entry of the registry, whatever [count] it is given. *)
Lemma release_interrupts_spec (count : Z) (s0 : state) (k : nat) :
  wf s0 → irq_actions s0 = take k (handles s0) →
  ∃ s', release_interrupts count s0 = Done tt s' ∧
        same_data s0 s' ∧ proc_entry s' = proc_entry s0 ∧
        irq_actions s' = [] ∧
        calls s' = calls s0 ++ map (free_call k) (handles s0).
Proof.
  intros Hwf Hact.
  set (n := i2c_controller_count s0). set (hs := handles s0).
  pose (I := λ (i : Z) (s : state),
    same_data s0 s ∧ proc_entry s = proc_entry s0 ∧
    irq_actions s = drop (Z.to_nat i) (take k hs) ∧
    calls s = calls s0 ++ map (free_call k) (take (Z.to_nat i) hs)).
  destruct (for_controllers_inv n I (λ _ _, False)
              (λ i, do c <- controller i;
                    run free_irq (uint_wrap (irq c)) i;
                    ret None)) with (fuel := Z.to_nat n) (i := 0) (s := s0)
    as (r & s' & Hrun & Hpost).
  - count_bounds.
  - intros i s (Hd & _). by destruct Hd as (_ & -> & _).
  - intros i s Hi (Hd & Hp & Ha & Hc).
    destruct (controller_live s i) as (c & Hctl & _ & Hh).
    { by eapply same_data_wf. }
    { destruct Hd as (_ & -> & _). done. }
    rewrite (same_data_handles _ _ Hd) in Hh. fold hs in Hh.
    destruct (remove_action_drop hs k (Z.to_nat i) _ Hh) as [Hrm Hin].
    eexists None, _. unfold bind. rewrite Hctl. unfold free_irq, ret.
    split; [reflexivity|]. unfold I. simpl.
    rewrite Ha, Hrm, Hin, Hc. repeat split; try apply Hd; try done.
    + f_equal. lia.
    + replace (Z.to_nat (i + 1)) with (S (Z.to_nat i)) by lia.
      rewrite (take_S_r _ _ _ Hh), map_app, <- app_assoc. simpl.
      do 3 f_equal. unfold free_call. simpl. f_equal.
      apply bool_decide_ext. lia.
  - count_bounds.
  - lia.
  - unfold I. change (Z.to_nat 0) with 0%nat.
    rewrite drop_0, take_0. simpl. rewrite app_nil_r.
    by split; [apply same_data_refl|].
  - destruct r as [rc|]; [done|]. destruct Hpost as (Hd & Hp & Ha & Hc).
    exists s'. unfold release_interrupts.
    rewrite (bind_Done get_count _ s0 n s0 eq_refl).
    rewrite (bind_Done _ _ _ _ _ Hrun).
    split; [done|]. split; [done|]. split; [done|].
    pose proof (length_handles s0 Hwf) as Hlen. fold hs n in Hlen.
    split.
    + rewrite Ha. apply drop_ge. rewrite length_take. lia.
    + rewrite Hc. by rewrite take_ge by lia.
Qed.

(** ** [hook_interrupts] *)

(** Either every line is granted and the actions registered are those of
    the registry, or the first refusal, at index [k], is answered by
    [release_interrupts], which calls [free_irq] for the whole registry. *)
Lemma hook_interrupts_spec (pf : platform) (s0 : state) :
  wf s0 → irq_actions s0 = [] →
  ∃ rc s', hook_interrupts pf s0 = Done rc s' ∧
    same_data s0 s' ∧ proc_entry s' = proc_entry s0 ∧
    ((rc = 0 ∧ Forall (λ a, refused pf a = None) (handles s0) ∧
      irq_actions s' = handles s0 ∧
      calls s' = calls s0 ++ map (request_call 0) (handles s0)) ∨
     (∃ k a e, handles s0 !! k = Some a ∧ refused pf a = Some e ∧
        Forall (λ a, refused pf a = None) (take k (handles s0)) ∧
        rc = Z.neg e ∧ irq_actions s' = [] ∧
        calls s' = calls s0 ++ refused_calls (handles s0) k a e)).
Proof.
  intros Hwf Hact.
  set (n := i2c_controller_count s0). set (hs := handles s0).
  pose (I := λ (i : Z) (s : state),
    same_data s0 s ∧ proc_entry s = proc_entry s0 ∧
    irq_actions s = take (Z.to_nat i) hs ∧
    calls s = calls s0 ++ map (request_call 0) (take (Z.to_nat i) hs) ∧
    Forall (λ a, refused pf a = None) (take (Z.to_nat i) hs)).
  pose (Q := λ (rc : Z) (s : state),
    same_data s0 s ∧ proc_entry s = proc_entry s0 ∧
    ∃ k a e, hs !! k = Some a ∧ refused pf a = Some e ∧
      Forall (λ a, refused pf a = None) (take k hs) ∧
      rc = Z.neg e ∧ irq_actions s = [] ∧
      calls s = calls s0 ++ refused_calls hs k a e).
  destruct (for_controllers_inv n I Q
              (λ i, do c <- controller i;
                    do rc <- request_irq pf (uint_wrap (irq c)) IRQF_SHARED i;
                    if rc <? 0 then
                      run release_interrupts i;
                      ret (Some rc)
                    else ret None)) with (fuel := Z.to_nat n) (i := 0) (s := s0)
    as (r & s' & Hrun & Hpost).
  - count_bounds.
  - intros i s (Hd & _). by destruct Hd as (_ & -> & _).
  - intros i s Hi (Hd & Hp & Ha & Hc & Hok).
    assert (wf s) as Hwfs by (by eapply same_data_wf).
    destruct (controller_live s i) as (c & Hctl & _ & Hh); [done|..].
    { destruct Hd as (_ & -> & _). done. }
    rewrite (same_data_handles _ _ Hd) in Hh. fold hs in Hh.
    rewrite (bind_Done _ _ _ _ _ Hctl).
    unfold bind, request_irq.
    destruct (irq_refused pf (uint_wrap (irq c)) i) as [e|] eqn:He.
    + change (Z.neg e <? 0) with true. cbv iota.
      set (s1 := log_call _ s).
      destruct (release_interrupts_spec i s1 (Z.to_nat i))
        as (s2 & Hrel & Hd2 & Hp2 & Ha2 & Hc2).
      { done. }
      { change (handles s1) with (handles s).
        by rewrite (same_data_handles _ _ Hd). }
      rewrite Hrel. eexists (Some _), s2. split; [reflexivity|].
      split; [by eapply same_data_trans|]. split; [by rewrite Hp2|].
      exists (Z.to_nat i), (uint_wrap (irq c), i), e.
      repeat split; try done.
      rewrite Hc2. subst s1. simpl. rewrite Hc.
      change (handles (log_call _ s)) with (handles s).
      rewrite (same_data_handles _ _ Hd). fold hs.
      unfold refused_calls. by rewrite <- !app_assoc.
    + change (0 <? 0) with false. cbv iota.
      eexists None, _. split; [reflexivity|]. unfold I. simpl.
      replace (Z.to_nat (i + 1)) with (S (Z.to_nat i)) by lia.
      rewrite (take_S_r _ _ _ Hh).
      rewrite Ha, Hc, map_app, <- app_assoc. repeat split; try apply Hd; try done.
      apply Forall_app. split; [done|]. by apply Forall_singleton.
  - count_bounds.
  - lia.
  - unfold I. change (Z.to_nat 0) with 0%nat. rewrite take_0. simpl.
    rewrite app_nil_r. by split; [apply same_data_refl|].
  - pose proof (length_handles s0 Hwf) as Hlen. fold hs n in Hlen.
    unfold hook_interrupts.
    rewrite (bind_Done get_count _ s0 n s0 eq_refl).
    rewrite (bind_Done _ _ _ _ _ Hrun). unfold ret.
    destruct r as [rc|].
    + destruct Hpost as (Hd & Hp & Hk). exists rc, s'. simpl.
      split; [done|]. split; [done|]. split; [done|]. by right.
    + destruct Hpost as (Hd & Hp & Ha & Hc & Hok). exists 0, s'. simpl.
      rewrite take_ge in Ha, Hc, Hok by lia.
      split; [done|]. split; [done|]. split; [done|]. by left.
Qed.

(** ** [i2c_controller_detect] *)

Lemma bind_ext {A B} (m : M A) (k k' : A → M B) s :
  (∀ a s', k a s' = k' a s') → bind m k s = bind m k' s.
Proof. intros H. unfold bind. by destruct (m s). Qed.

Lemma kvadra_i2c_wanted d :
  pci_match PCI_VENDOR_ID_INTEL PCI_ANY_ID d = true →
  kvadra_i2c (dev_device d) = bool_decide (wanted d).
Proof.
  unfold pci_match, pci_match_id.
  change (PCI_VENDOR_ID_INTEL =? PCI_ANY_ID) with false.
  rewrite Z.eqb_refl, orb_false_l, orb_true_l, andb_true_r.
  intros Hv%Z.eqb_eq.
  destruct (kvadra_i2c (dev_device d)) eqn:Hk; symmetry.
  - apply bool_decide_eq_true_2. split; [done|].
    unfold kvadra_i2c in Hk. rewrite !elem_of_cons.
    repeat case_match; try done; auto.
  - apply bool_decide_eq_false_2. intros [_ Hin].
    rewrite !elem_of_cons, elem_of_nil in Hin.
    by destruct Hin as [Hd|[Hd|[Hd|[Hd|[]]]]]; rewrite Hd in Hk.
Qed.

Lemma wanted_pci_match d :
  wanted d → pci_match PCI_VENDOR_ID_INTEL PCI_ANY_ID d = true.
Proof.
  intros [Hv _]. unfold pci_match, pci_match_id.
  by rewrite Hv, !Z.eqb_refl, !orb_true_r.
Qed.

Lemma length_pci_scan vendor device l :
  (length (pci_scan vendor device l) ≤ length l)%nat.
Proof.
  induction l as [|d l IH]; simpl; [done|].
  destruct (pci_match vendor device d); simpl; lia.
Qed.

Lemma pci_scan_head vendor device l d r :
  pci_scan vendor device l = d :: r → pci_match vendor device d = true.
Proof.
  induction l as [|x l IH]; simpl; [done|].
  destruct (pci_match vendor device x) eqn:Hx; [|done]. by intros [= <- _].
Qed.

(** The scan skips no wanted device. *)
Lemma filter_pci_scan l :
  filter wanted (pci_scan PCI_VENDOR_ID_INTEL PCI_ANY_ID l) = filter wanted l.
Proof.
  induction l as [|x l IH]; simpl; [done|].
  destruct (pci_match PCI_VENDOR_ID_INTEL PCI_ANY_ID x) eqn:Hx; [done|].
  rewrite IH, filter_cons_False; [done|].
  intros Hw%wanted_pci_match. congruence.
Qed.

Lemma detect_loop_append_all pf fuel dev s :
  (length dev ≤ fuel)%nat →
  (∀ d r, dev = d :: r → pci_match PCI_VENDOR_ID_INTEL PCI_ANY_ID d = true) →
  detect_loop pf fuel dev s = append_all (filter wanted dev) s.
Proof.
  revert dev s. induction fuel as [|fuel IH]; intros dev s Hlen Hhead.
  - by destruct dev; [|simpl in Hlen; lia].
  - destruct dev as [|d r]; [done|]. simpl in Hlen.
    assert (∀ s', detect_loop pf fuel
                (pci_get_device pf PCI_VENDOR_ID_INTEL PCI_ANY_ID (d :: r)) s'
              = append_all (filter wanted r) s') as Hnext.
    { intros s'. simpl. rewrite IH.
      - by rewrite filter_pci_scan.
      - pose proof (length_pci_scan PCI_VENDOR_ID_INTEL PCI_ANY_ID r). lia.
      - intros d' r'. apply pci_scan_head. }
    cbn [detect_loop]. rewrite (kvadra_i2c_wanted d) by eauto.
    destruct (decide (wanted d)) as [Hw|Hw].
    + rewrite bool_decide_eq_true_2, filter_cons_True by done.
      cbn [append_all]. do 4 (apply bind_ext; intros).
      by destruct (_ =? _).
    + rewrite bool_decide_eq_false_2, filter_cons_False by done.
      apply Hnext.
Qed.

Lemma filled_snoc pre d :
  (length pre < Z.to_nat I2C_CONTROLLER_MAX)%nat →
  filled pre !! length pre = Some (I2c_controller 0 0) ∧
  <[length pre := new_controller d]> (filled pre) = filled (pre ++ [d]).
Proof.
  intros Hlen. unfold filled.
  destruct (Z.to_nat I2C_CONTROLLER_MAX - length pre)%nat as [|m] eqn:Hm; [lia|].
  rewrite length_app. simpl.
  replace (Z.to_nat I2C_CONTROLLER_MAX - (length pre + 1))%nat with m by lia.
  split.
  - rewrite lookup_app_r by (rewrite length_map; lia).
    by rewrite length_map, Nat.sub_diag.
  - rewrite insert_app_r_alt by (rewrite length_map; lia).
    rewrite length_map, Nat.sub_diag. simpl.
    by rewrite map_app, <- app_assoc.
Qed.

Lemma length_filled pre :
  (length pre ≤ Z.to_nat I2C_CONTROLLER_MAX)%nat →
  length (filled pre) = Z.to_nat I2C_CONTROLLER_MAX.
Proof.
  intros H. unfold filled. rewrite length_app, length_map, length_replicate. lia.
Qed.

(** The appends, from a state in which [pre] has been appended already. *)
Lemma append_all_spec ms pre s :
  (length pre < Z.to_nat I2C_CONTROLLER_MAX)%nat →
  i2c_controller_list s = filled pre →
  i2c_controller_count s = Z.of_nat (length pre) →
  let kept := take (Z.to_nat I2C_CONTROLLER_MAX) (pre ++ ms) in
  append_all ms s =
    Done (detect_rc (pre ++ ms))
         (State (filled kept) (Z.of_nat (length kept)) (irq_actions s)
                (proc_entry s) (seq_file s) (calls s)).
Proof.
  revert pre s. induction ms as [|d ms IH]; intros pre s Hlen Hl Hc kept.
  - subst kept. rewrite app_nil_r, take_ge by lia.
    unfold detect_rc. rewrite decide_True by done.
    destruct s; simpl in *; by subst.
  - pose proof (filled_snoc pre d Hlen) as [Hz Hins].
    cbn [append_all]. unfold bind at 1, get_count. rewrite Hc.
    unfold bind at 1, store_irq. rewrite decide_True by lia.
    rewrite Nat2Z.id, Hl, Hz. cbn [isr_count].
    change (I2c_controller (int_wrap (dev_irq d)) 0) with (new_controller d).
    rewrite Hins.
    unfold bind at 1, set_count. unfold bind at 1.
    rewrite int_wrap_small
      by (unfold INT_MIN, INT_MAX, I2C_CONTROLLER_MAX in *; lia).
    cbn [i2c_controller_count].
    assert (pre ++ d :: ms = (pre ++ [d]) ++ ms) as Hassoc
      by (by rewrite <- app_assoc).
    destruct (Z.eqb_spec (Z.of_nat (length pre) + 1) I2C_CONTROLLER_MAX)
      as [Hfull|Hroom].
    + unfold ret. f_equal.
      * unfold detect_rc. rewrite decide_False; [done|].
        rewrite length_app. simpl. unfold I2C_CONTROLLER_MAX in *. lia.
      * subst kept. rewrite Hassoc, take_app_length'
          by (rewrite length_app; simpl; unfold I2C_CONTROLLER_MAX in *; lia).
        simpl. rewrite length_app. simpl. do 2 f_equal. lia.
    + subst kept. rewrite Hassoc. rewrite (IH (pre ++ [d])).
      * done.
      * rewrite length_app. simpl. unfold I2C_CONTROLLER_MAX in *. lia.
      * done.
      * simpl. rewrite length_app. simpl. lia.
Qed.

(** [i2c_controller_detect] always returns: it never leaves the array and
    its loop ends.  From [boot] the result depends on the wanted devices of
    the bus alone. *)
Lemma i2c_controller_detect_boot (pf : platform) :
  i2c_controller_detect pf boot =
    Done (detect_rc (filter wanted (pci_bus pf)))
         (detected (filter wanted (pci_bus pf))).
Proof.
  unfold i2c_controller_detect. rewrite detect_loop_append_all.
  - simpl. rewrite filter_pci_scan.
    rewrite (append_all_spec _ [] boot); [reflexivity| | |].
    + unfold I2C_CONTROLLER_MAX. simpl. lia.
    + reflexivity.
    + reflexivity.
  - apply length_pci_scan.
  - intros d r. apply pci_scan_head.
Qed.

(** ** What the loops leave alone *)

Lemma release_interrupts_frame (count : Z) (s0 : state) :
  wf s0 →
  ∃ s', release_interrupts count s0 = Done tt s' ∧
        same_data s0 s' ∧ proc_entry s' = proc_entry s0.
Proof.
  intros Hwf. set (n := i2c_controller_count s0).
  pose (I := λ (i : Z) (s : state),
    same_data s0 s ∧ proc_entry s = proc_entry s0).
  destruct (for_controllers_inv n I (λ _ _, False)
              (λ i, do c <- controller i;
                    run free_irq (uint_wrap (irq c)) i;
                    ret None)) with (fuel := Z.to_nat n) (i := 0) (s := s0)
    as (r & s' & Hrun & Hpost).
  - count_bounds.
  - intros i s (Hd & _). by destruct Hd as (_ & -> & _).
  - intros i s Hi (Hd & Hp).
    destruct (controller_live s i) as (c & Hctl & _ & _).
    { by eapply same_data_wf. }
    { destruct Hd as (_ & -> & _). done. }
    eexists None, _. rewrite (bind_Done _ _ _ _ _ Hctl).
    split; [reflexivity|]. split; [apply Hd|apply Hp].
  - count_bounds.
  - lia.
  - split; [apply same_data_refl|done].
  - destruct r as [rc|]; [done|]. exists s'. unfold release_interrupts.
    rewrite (bind_Done get_count _ s0 n s0 eq_refl).
    by rewrite (bind_Done _ _ _ _ _ Hrun).
Qed.

Lemma hook_interrupts_frame (pf : platform) (s0 : state) :
  wf s0 →
  ∃ rc s', hook_interrupts pf s0 = Done rc s' ∧
           same_data s0 s' ∧ proc_entry s' = proc_entry s0.
Proof.
  intros Hwf. set (n := i2c_controller_count s0).
  pose (I := λ (i : Z) (s : state),
    same_data s0 s ∧ proc_entry s = proc_entry s0).
  destruct (for_controllers_inv n I (λ _, I 0)
              (λ i, do c <- controller i;
                    do rc <- request_irq pf (uint_wrap (irq c)) IRQF_SHARED i;
                    if rc <? 0 then
                      run release_interrupts i;
                      ret (Some rc)
                    else ret None)) with (fuel := Z.to_nat n) (i := 0) (s := s0)
    as (r & s' & Hrun & Hpost).
  - count_bounds.
  - intros i s (Hd & _). by destruct Hd as (_ & -> & _).
  - intros i s Hi (Hd & Hp).
    assert (wf s) as Hwfs by (by eapply same_data_wf).
    destruct (controller_live s i) as (c & Hctl & _ & _); [done|..].
    { destruct Hd as (_ & -> & _). done. }
    rewrite (bind_Done _ _ _ _ _ Hctl). unfold bind, request_irq.
    destruct (irq_refused pf (uint_wrap (irq c)) i) as [e|].
    + change (Z.neg e <? 0) with true. cbv iota.
      set (s1 := log_call _ s).
      destruct (release_interrupts_frame i s1) as (s2 & Hrel & Hd2 & Hp2);
        [done|].
      rewrite Hrel. eexists (Some _), s2. split; [reflexivity|].
      split; [by eapply same_data_trans|by rewrite Hp2].
    + change (0 <? 0) with false. cbv iota.
      eexists None, _. split; [reflexivity|]. split; [apply Hd|apply Hp].
  - count_bounds.
  - lia.
  - split; [apply same_data_refl|done].
  - unfold hook_interrupts.
    rewrite (bind_Done get_count _ s0 n s0 eq_refl).
    rewrite (bind_Done _ _ _ _ _ Hrun). unfold ret.
    eexists _, s'. split; [reflexivity|]. by destruct r.
Qed.

(** ** [proc_show] *)

Lemma string_app_assoc (a b c : string) : (a +:+ b) +:+ c = a +:+ b +:+ c.
Proof.
  induction a as [|x a IH]; [done|].
  change (String x ((a +:+ b) +:+ c) = String x (a +:+ b +:+ c)).
  by f_equal.
Qed.

Lemma string_app_empty_r (a : string) : a +:+ "" = a.
Proof.
  induction a as [|x a IH]; [done|].
  change (String x (a +:+ "") = String x a). by f_equal.
Qed.

Lemma report_snoc l c : report (l ++ [c]) = report l +:+ report_line c.
Proof.
  induction l as [|x l IH].
  - simpl. by rewrite string_app_empty_r.
  - change (report ((x :: l) ++ [c]))
      with (report_line x +:+ report (l ++ [c])).
    change (report (x :: l)) with (report_line x +:+ report l).
    by rewrite IH, string_app_assoc.
Qed.

(** [proc_show] appends the report of the registry to the seq_file, returns
    0 and changes nothing else. *)
Lemma proc_show_spec (s0 : state) :
  wf s0 →
  proc_show s0 =
    Done 0 (set_seq_file (seq_file s0 +:+ report (registry s0)) s0).
Proof.
  intros Hwf. set (n := i2c_controller_count s0).
  pose (I := λ (i : Z) (s : state),
    s = set_seq_file
          (seq_file s0 +:+ report (take (Z.to_nat i) (registry s0))) s0).
  destruct (for_controllers_inv n I (λ _ _, False)
              (λ i, do c <- controller i;
                    run seq_printf_irq (irq c) (atomic_read c);
                    ret None)) with (fuel := Z.to_nat n) (i := 0) (s := s0)
    as (r & s' & Hrun & Hpost).
  - count_bounds.
  - by intros i s ->.
  - intros i s Hi ->.
    set (s1 := set_seq_file _ s0).
    destruct (controller_live s1 i) as (c & Hctl & Hc & _); [done|done|].
    eexists None, _. rewrite (bind_Done _ _ _ _ _ Hctl).
    split; [reflexivity|]. unfold I.
    replace (Z.to_nat (i + 1)) with (S (Z.to_nat i)) by lia.
    assert (registry s0 !! Z.to_nat i = Some c) as Hr.
    { unfold registry. rewrite lookup_take_lt by (subst n; lia). done. }
    rewrite (take_S_r _ _ _ Hr), report_snoc.
    unfold set_seq_file. simpl. f_equal.
    by rewrite string_app_assoc.
  - count_bounds.
  - lia.
  - unfold I. change (Z.to_nat 0) with 0%nat. rewrite take_0. simpl.
    rewrite string_app_empty_r. by destruct s0.
  - destruct r as [rc|]; [done|]. unfold proc_show.
    rewrite (bind_Done get_count _ s0 n s0 eq_refl).
    rewrite (bind_Done _ _ _ _ _ Hrun). unfold ret. f_equal.
    rewrite Hpost. do 3 f_equal. apply take_ge.
    rewrite length_registry by done. subst n. lia.
Qed.

(** ** The state after discovery *)

Lemma wf_boot : wf boot.
Proof. split; [reflexivity|]. simpl. unfold I2C_CONTROLLER_MAX. lia. Qed.

Lemma wf_detected ms : wf (detected ms).
Proof.
  unfold detected, wf. simpl. split.
  - apply length_filled. rewrite length_take. lia.
  - rewrite length_take. unfold I2C_CONTROLLER_MAX. lia.
Qed.

Lemma registry_detected ms :
  registry (detected ms) =
    map new_controller (take (Z.to_nat I2C_CONTROLLER_MAX) ms).
Proof.
  unfold registry, detected, filled. simpl. rewrite Nat2Z.id.
  rewrite take_app_length'; [done|]. by rewrite length_map.
Qed.

Lemma counters_filled pre : Forall (λ c, atomic_read c = 0) (filled pre).
Proof.
  unfold filled. apply Forall_app. split.
  - apply Forall_forall. by intros c (d & -> & _)%list_elem_of_fmap.
  - apply Forall_forall. by intros c [-> _]%elem_of_replicate.
Qed.

Lemma detect_rc_cases ms :
  (detect_rc ms = 0 ∧ (length ms < 16)%nat) ∨
  (detect_rc ms = - ENOBUFS ∧ (16 ≤ length ms)%nat).
Proof.
  unfold detect_rc, I2C_CONTROLLER_MAX.
  case_decide; [left|right]; split; try done; lia.
Qed.

(** ** [mod_init] *)

(** The three ways a load fails and the way it succeeds, from [boot], with
    the calls made in each. *)
Lemma mod_init_boot (pf : platform) :
  let ms := filter wanted (pci_bus pf) in
  let hs := handles (detected ms) in
  ∃ rc s', mod_init pf boot = Done rc s' ∧ same_data (detected ms) s' ∧
    ((rc = - ENOBUFS ∧ (16 ≤ length ms)%nat ∧ unloaded s' ∧ calls s' = []) ∨
     (rc = - ENOENT ∧ proc_ok pf = false ∧ unloaded s' ∧
      calls s' = [ProcCreate false]) ∨
     (∃ k a e, hs !! k = Some a ∧ refused pf a = Some e ∧
        rc = Z.neg e ∧ unloaded s' ∧
        calls s' = [ProcCreate true] ++ refused_calls hs k a e ++ [ProcRemove]) ∨
     (rc = 0 ∧ (length ms < 16)%nat ∧ active s' ∧
      calls s' = [ProcCreate true] ++ map (request_call 0) hs)).
Proof.
  intros ms hs. unfold mod_init.
  rewrite (bind_Done _ _ _ _ _ (i2c_controller_detect_boot pf)). fold ms.
  destruct (detect_rc_cases ms) as [[-> Hlen]|[-> Hlen]].
  - change (0 <? 0) with false. cbv iota.
    unfold bind at 1, proc_create_single.
    destruct (proc_ok pf) eqn:Hproc; cbn [negb].
    + set (s1 := log_call _ _).
      destruct (hook_interrupts_spec pf s1)
        as (rc & s2 & Hhook & Hd & Hp & Hcases).
      { apply wf_detected. }
      { done. }
      rewrite (bind_Done _ _ _ _ _ Hhook).
      change (handles s1) with hs in Hcases.
      destruct Hcases as [(-> & _ & Ha & Hc)|(k & a & e & Hk & He & _ & -> & Ha & Hc)].
      * change (0 <? 0) with false. cbv iota.
        eexists 0, s2. split; [reflexivity|]. split; [exact Hd|].
        do 3 right. split; [done|]. split; [done|]. split; [|by rewrite Hc].
        split; [|by rewrite Hp].
        rewrite Ha. symmetry. fold (handles s1). by apply same_data_handles.
      * change (Z.neg e <? 0) with true. cbv iota.
        eexists (Z.neg e), _. split; [reflexivity|]. split; [exact Hd|].
        right; right; left. exists k, a, e.
        split; [done|]. split; [done|]. split; [done|]. split; [done|].
        simpl. by rewrite Hc.
    + eexists (- ENOENT), _. split; [reflexivity|].
      split; [by repeat split|]. right; left. by repeat split.
  - change (- ENOBUFS <? 0) with true. cbv iota.
    eexists (- ENOBUFS), _. split; [reflexivity|].
    split; [apply same_data_refl|]. left. by repeat split.
Qed.

(** ** What the operations leave alone *)

Lemma insert_same_irq (l : list i2c_controller) (i : nat) c n :
  l !! i = Some c →
  map irq (<[i := I2c_controller (irq c) n]> l) = map irq l.
Proof.
  intros Hc. change (map irq) with (fmap (M := list) irq).
  rewrite list_fmap_insert. simpl. apply list_insert_id.
  by rewrite list_lookup_fmap, Hc.
Qed.

Lemma insert_same_counter (l : list i2c_controller) (i : nat) c v :
  l !! i = Some c →
  map isr_count (<[i := I2c_controller v (isr_count c)]> l) = map isr_count l.
Proof.
  intros Hc. change (map isr_count) with (fmap (M := list) isr_count).
  rewrite list_fmap_insert. simpl. apply list_insert_id.
  by rewrite list_lookup_fmap, Hc.
Qed.

Lemma irq_handler_spec (s : state) (p : Z) (c : i2c_controller) :
  0 ≤ p → i2c_controller_list s !! Z.to_nat p = Some c →
  irq_handler p s =
    Done IRQ_HANDLED
         (set_list (<[Z.to_nat p :=
                       I2c_controller (irq c) (int_wrap (isr_count c + 1))]>
                      (i2c_controller_list s)) s).
Proof.
  intros Hp Hc. unfold irq_handler, bind, atomic_inc.
  by rewrite decide_True, Hc by done.
Qed.

(** The registry is frozen: an operation that runs after discovery returns,
    and keeps the array's length, the count and every line. *)
Lemma perform_frozen (o : operation) (s : state) :
  wf s → in_array o →
  ∃ s', perform o s = Done tt s' ∧ wf s' ∧
        i2c_controller_count s' = i2c_controller_count s ∧
        map irq (i2c_controller_list s') = map irq (i2c_controller_list s).
Proof.
  intros Hwf Ho.
  assert (∀ s', same_data s s' →
            wf s' ∧ i2c_controller_count s' = i2c_controller_count s ∧
            map irq (i2c_controller_list s') = map irq (i2c_controller_list s))
    as Hsame.
  { intros s' Hd. split; [by eapply same_data_wf|].
    destruct Hd as (-> & -> & _). done. }
  destruct o as [p| |pf|count|pf| |]; simpl in Ho.
  - destruct (lookup_lt_is_Some_2 (i2c_controller_list s) (Z.to_nat p))
      as [c Hc].
    { destruct Hwf as [-> _]. lia. }
    eexists. cbn [perform].
    rewrite (bind_Done _ _ _ _ _ (irq_handler_spec s p c (proj1 Ho) Hc)).
    split; [reflexivity|]. split; [|split; [done|]].
    + destruct Hwf as [Hl Hn]. split; [|done]. simpl.
      by rewrite length_insert.
    + simpl. by apply insert_same_irq.
  - eexists. cbn [perform].
    rewrite (bind_Done _ _ _ _ _ (proc_show_spec s Hwf)).
    split; [reflexivity|]. by destruct Hwf.
  - destruct (hook_interrupts_frame pf s Hwf) as (rc & s' & Hrun & Hd & _).
    exists s'. cbn [perform]. rewrite (bind_Done _ _ _ _ _ Hrun).
    split; [done|]. by apply Hsame.
  - destruct (release_interrupts_frame count s Hwf) as (s' & Hrun & Hd & _).
    exists s'. split; [done|]. by apply Hsame.
  - eexists. split; [reflexivity|]. apply Hsame.
    by destruct (proc_ok pf).
  - eexists. split; [reflexivity|]. by apply Hsame.
  - destruct (release_interrupts_frame (i2c_controller_count s) s Hwf)
      as (s' & Hrun & Hd & _).
    eexists. unfold perform, mod_exit.
    rewrite (bind_Done get_count _ s _ s eq_refl).
    rewrite (bind_Done _ _ _ _ _ Hrun).
    split; [reflexivity|]. apply Hsame.
    destruct Hd as (Hl & Hn & Hq). by repeat split.
Qed.

Lemma perform_all_frozen (os : list operation) (s : state) :
  wf s → Forall in_array os →
  ∃ s', perform_all os s = Done tt s' ∧ wf s' ∧
        i2c_controller_count s' = i2c_controller_count s ∧
        map irq (i2c_controller_list s') = map irq (i2c_controller_list s).
Proof.
  intros Hwf Hos. revert s Hwf.
  induction Hos as [|o os Ho _ IH]; intros s Hwf.
  - by exists s.
  - destruct (perform_frozen o s Hwf Ho) as (s1 & Hrun & Hwf1 & Hn1 & Hl1).
    destruct (IH s1 Hwf1) as (s2 & Hrun2 & Hwf2 & Hn2 & Hl2).
    exists s2. cbn [perform_all]. rewrite (bind_Done _ _ _ _ _ Hrun).
    split; [done|]. split; [done|]. split; congruence.
Qed.

(** [i2c_controller_detect] writes lines only: whatever state it starts
    from, the counters it leaves are those it found. *)
Lemma detect_loop_counters pf fuel dev s rc s' :
  detect_loop pf fuel dev s = Done rc s' →
  map isr_count (i2c_controller_list s') = map isr_count (i2c_controller_list s).
Proof.
  revert dev s. induction fuel as [|fuel IH]; intros dev s Hrun.
  - destruct dev; [|done]. by injection Hrun as _ <-.
  - destruct dev as [|d r]; [by injection Hrun as _ <-|].
    cbn [detect_loop] in Hrun.
    destruct (kvadra_i2c (dev_device d)); [|by eapply IH].
    unfold bind at 1, get_count in Hrun.
    unfold bind at 1, store_irq in Hrun.
    destruct (decide (0 ≤ i2c_controller_count s)); [|done].
    destruct (i2c_controller_list s !! Z.to_nat (i2c_controller_count s))
      as [c|] eqn:Hc; [|done].
    unfold bind at 1, set_count in Hrun. unfold bind at 1 in Hrun.
    cbn [i2c_controller_count] in Hrun.
    rewrite <- (insert_same_counter _ _ _ (int_wrap (dev_irq d)) Hc).
    destruct (_ =? _).
    + by injection Hrun as _ <-.
    + by rewrite (IH _ _ Hrun).
Qed.

(** * The claims *)

(** ** Install and rollback *)

(** C1.  When [hook_interrupts] fails on a registry none of whose entries
    is hooked, the first refusal being at index [k], it returns the refusal
    and nothing stays registered, but after the [k] granted requests and
    the refused one it has called [free_irq] once for every entry of the
    registry and not for the first [k] only: [release_interrupts] does not
    use the count it is given.  So on a registry of three entries (lines 27,
    40, 27) where the request for index 1 is refused, [free_irq] is also
    called for the indices 1 and 2, for which no handler was installed. *)
Theorem C1_rollback_frees_whole_registry :
  (∀ pf s rc s',
     wf s → irq_actions s = [] →
     hook_interrupts pf s = Done rc s' → rc ≠ 0 →
     ∃ k a e, handles s !! k = Some a ∧ refused pf a = Some e ∧
       Forall (λ a, refused pf a = None) (take k (handles s)) ∧
       rc = Z.neg e ∧ irq_actions s' = [] ∧
       calls s' = calls s ++ map (request_call 0) (take k (handles s)) ++
                  [request_call (Z.neg e) a] ++
                  map (free_call k) (handles s)) ∧
  ∃ s s',
    i2c_controller_detect (friendly sample_bus) boot = Done 0 s ∧
    hook_interrupts (busy_at 1 sample_bus) s = Done (-16) s' ∧
    irq_actions s' = [] ∧
    calls s' = [ RequestIrq 27 IRQF_SHARED 0 0;
                 RequestIrq 40 IRQF_SHARED 1 (-16);
                 FreeIrq 27 0 true;
                 FreeIrq 40 1 false;
                 FreeIrq 27 2 false ].
Proof.
  split.
  - intros pf s rc s' Hwf Hact Hrun Hrc.
    destruct (hook_interrupts_spec pf s Hwf Hact)
      as (rc' & s'' & Hrun' & _ & _ & Hcases).
    rewrite Hrun in Hrun'. injection Hrun' as <- <-.
    destruct Hcases as [(-> & _)|Hrefused]; [done|]. exact Hrefused.
  - eexists _, _. split; [by vm_compute|]. split; [by vm_compute|].
    split; by vm_compute.
Qed.

(** ** Capacity *)

(** C2. [i2c_controller_detect] fails, with -ENOBUFS, exactly when the bus
    has sixteen wanted devices or more; with sixteen, which all fit in the
    array, it fails after it has stored the last one. *)
Theorem C2_sixteen_controllers_rejected :
  (∀ pf, ∃ s',
     i2c_controller_detect pf boot =
       Done (if decide (16 ≤ length (filter wanted (pci_bus pf)))%nat
             then - ENOBUFS else 0) s') ∧
  ∃ s', i2c_controller_detect (friendly (replicate 16 (i2c 9))) boot
          = Done (- ENOBUFS) s' ∧
        registry s' = replicate 16 (I2c_controller 9 0).
Proof.
  split.
  - intros pf. eexists. rewrite i2c_controller_detect_boot. f_equal.
    unfold detect_rc, I2C_CONTROLLER_MAX.
    repeat case_decide; try done; lia.
  - eexists. split; by vm_compute.
Qed.

(** ** Uninstall *)

(** C3.  Called on an empty hook set, [release_interrupts] is not a no-op:
    on a registry none of whose entries is hooked it calls [free_irq] once
    for every entry, whatever [count] it is given, and none of the calls
    finds a handler to release.  The module reaches this when the very
    first [request_irq] is refused: on a registry of three entries (lines
    27, 40, 27), [hook_interrupts] calls [release_interrupts] with the
    count 0 and three lines that were never hooked are released. *)
Theorem C3_release_on_empty_hook_set :
  (∀ count s,
     wf s → irq_actions s = [] →
     ∃ s', release_interrupts count s = Done tt s' ∧
           irq_actions s' = [] ∧
           calls s' = calls s ++
                      map (λ a, FreeIrq a.1 a.2 false) (handles s)) ∧
  ∃ s s',
    i2c_controller_detect (friendly sample_bus) boot = Done 0 s ∧
    irq_actions s = [] ∧
    hook_interrupts (busy_at 0 sample_bus) s = Done (-16) s' ∧
    calls s' = [ RequestIrq 27 IRQF_SHARED 0 (-16);
                 FreeIrq 27 0 false;
                 FreeIrq 40 1 false;
                 FreeIrq 27 2 false ].
Proof.
  split.
  - intros count s Hwf Hact.
    destruct (release_interrupts_spec count s 0 Hwf)
      as (s' & Hrun & _ & _ & Ha & Hc); [by rewrite take_0|].
    exists s'. split; [done|]. split; [done|]. rewrite Hc. f_equal.
    apply Forall_fmap_ext, Forall_lookup. intros j a Hj.
    unfold handles in Hj. rewrite lookup_handles_from in Hj.
    destruct (registry s !! j); [|done]. injection Hj as <-.
    unfold free_call. simpl. f_equal. apply bool_decide_eq_false_2. lia.
  - eexists _, _. split; [by vm_compute|]. split; [by vm_compute|].
    split; by vm_compute.
Qed.

(** ** Discovery *)

(** C4. When [i2c_controller_detect] succeeds, the registry holds one
    record for every device of the bus that has the Intel vendor id and one
    of the four device ids, and for no other device, in the order of the
    bus, duplicates kept.  The record's line is the device's [irq] stored in
    an [int]: the same 32 bits, and the same number for every line up to
    INT_MAX. *)
Theorem C4_registry_is_the_wanted_devices (pf : platform) (s' : state) :
  i2c_controller_detect pf boot = Done 0 s' →
  registry s' = map new_controller (filter wanted (pci_bus pf)) ∧
  Forall2 (λ d c, uint_wrap (irq c) = uint_wrap (dev_irq d) ∧
                  (0 ≤ dev_irq d ≤ INT_MAX → irq c = dev_irq d))
          (filter wanted (pci_bus pf)) (registry s').
Proof.
  rewrite i2c_controller_detect_boot. intros [= Hrc <-].
  destruct (detect_rc_cases (filter wanted (pci_bus pf))) as [[_ Hlen]|[Hno _]];
    [|by rewrite Hno in Hrc].
  rewrite registry_detected, take_ge by (unfold I2C_CONTROLLER_MAX; lia).
  split; [done|]. apply Forall2_fmap_r, Forall_Forall2_diag, Forall_forall.
  intros d _. unfold new_controller. simpl. split.
  - apply uint_wrap_int_wrap.
  - intros Hd. apply int_wrap_small. unfold INT_MIN, INT_MAX in *. lia.
Qed.

(** On the sample bus the registry is the three KVADRA controllers; the
    Intel device with another id and the device of another vendor are
    skipped. *)
Lemma C4_registry_is_the_wanted_devices_witness :
  i2c_controller_detect (friendly sample_bus) boot
    = Done 0 (detected (filter wanted sample_bus)) ∧
  registry (detected (filter wanted sample_bus))
    = [I2c_controller 27 0; I2c_controller 40 0; I2c_controller 27 0].
Proof.
  assert (i2c_controller_detect (friendly sample_bus) boot
            = Done 0 (detected (filter wanted sample_bus))) as Hrun
    by (by vm_compute).
  split; [exact Hrun|].
  destruct (C4_registry_is_the_wanted_devices _ _ Hrun) as [-> _].
  by vm_compute.
Defined.

(** C10. From the zeroed storage of [boot], every counter is zero when
    [i2c_controller_detect] returns; and from any state, the counters it
    leaves are the counters it found: only lines are written. *)
Theorem C10_counters_zero_after_discovery (pf : platform) :
  (∃ rc s', i2c_controller_detect pf boot = Done rc s' ∧
            Forall (λ c, atomic_read c = 0) (i2c_controller_list s')) ∧
  (∀ s rc s', i2c_controller_detect pf s = Done rc s' →
     map isr_count (i2c_controller_list s')
       = map isr_count (i2c_controller_list s)).
Proof.
  split.
  - eexists _, _. split; [apply i2c_controller_detect_boot|].
    apply counters_filled.
  - intros s rc s'. apply detect_loop_counters.
Qed.

(** ** Load *)



(** ** The handler *)

(** C6. Called with a record of the array as context, [irq_handler] adds
    one to that record's counter (as [atomic_inc] does, in one step),
    leaves the rest of the state as it is and returns IRQ_HANDLED. *)
Theorem C6_irq_handler_counts_one (s : state) (p : Z) (c : i2c_controller) :
  0 ≤ p → i2c_controller_list s !! Z.to_nat p = Some c →
  irq_handler p s =
    Done IRQ_HANDLED
         (set_list (<[Z.to_nat p :=
                       I2c_controller (irq c) (int_wrap (isr_count c + 1))]>
                      (i2c_controller_list s)) s) ∧
  (INT_MIN ≤ isr_count c < INT_MAX →
   int_wrap (isr_count c + 1) = isr_count c + 1).
Proof.
  intros Hp Hc. split; [by apply irq_handler_spec|].
  intros Hr. apply int_wrap_small. lia.
Qed.

Lemma C6_irq_handler_counts_one_witness :
  0 ≤ 1 ∧ i2c_controller_list two_lines !! Z.to_nat 1 = Some (I2c_controller 9 0) ∧
  irq_handler 1 two_lines =
    Done IRQ_HANDLED
         (set_list (I2c_controller 5 3 :: I2c_controller 9 1 ::
                      replicate 14 (I2c_controller 0 0)) two_lines).
Proof.
  split; [lia|]. split; [reflexivity|].
  destruct (C6_irq_handler_counts_one two_lines 1 (I2c_controller 9 0))
    as [-> _]; [lia|reflexivity|].
  by vm_compute.
Defined.

(** ** The report *)

(** C7. [proc_show] appends to the seq_file one line [IRQ <line>: <count>]
    for every entry of the registry, in order, and nothing else; it returns
    0 and leaves the array, the count, the registered handlers and the
    /proc entry as they are. *)
Theorem C7_report_one_line_per_entry (s : state) :
  wf s →
  proc_show s = Done 0 (set_seq_file (seq_file s +:+ report (registry s)) s).
Proof. apply proc_show_spec. Qed.

Lemma C7_report_one_line_per_entry_witness :
  wf two_lines ∧
  registry two_lines = [I2c_controller 5 3; I2c_controller 9 0] ∧
  proc_show two_lines =
    Done 0 (set_seq_file ("IRQ 5: 3" +:+ newline +:+ "IRQ 9: 0" +:+ newline)
              two_lines).
Proof.
  assert (wf two_lines) as Hwf.
  { split; [reflexivity|]. simpl. unfold I2C_CONTROLLER_MAX. lia. }
  split; [exact Hwf|]. split; [reflexivity|].
  rewrite (C7_report_one_line_per_entry two_lines Hwf). by vm_compute.
Defined.

(** ** The registry invariant *)

(** C8. Discovery from [boot], on any bus, followed by any sequence of the
    module's other operations, stays inside the array at every step (it
    returns, so no access missed the sixteen slots).  The count is at most
    16 after discovery and after the operations, which change neither the
    count nor any line. *)
Theorem C8_registry_within_capacity (pf : platform) (os : list operation) :
  Forall in_array os →
  wf boot ∧
  ∃ rc s s',
    i2c_controller_detect pf boot = Done rc s ∧ wf s ∧
    perform_all os s = Done tt s' ∧ wf s' ∧
    i2c_controller_count s' = i2c_controller_count s ∧
    map irq (i2c_controller_list s') = map irq (i2c_controller_list s).
Proof.
  intros Hos. split; [apply wf_boot|].
  pose proof (wf_detected (filter wanted (pci_bus pf))) as Hwf.
  destruct (perform_all_frozen os _ Hwf Hos) as (s' & Hrun & Hwf' & Hn & Hl).
  eexists _, _, s'. split; [apply i2c_controller_detect_boot|]. done.
Qed.

Lemma C8_registry_within_capacity_witness :
  Forall in_array [Hook (friendly sample_bus); Interrupt 1; Read; Unload] ∧
  ∃ rc s s',
    i2c_controller_detect (friendly sample_bus) boot = Done rc s ∧ wf s ∧
    perform_all [Hook (friendly sample_bus); Interrupt 1; Read; Unload] s
      = Done tt s' ∧ wf s' ∧
    i2c_controller_count s' = i2c_controller_count s ∧
    map irq (i2c_controller_list s') = map irq (i2c_controller_list s).
Proof.
  assert (Forall in_array
            [Hook (friendly sample_bus); Interrupt 1; Read; Unload]) as Hos.
  { repeat constructor; unfold I2C_CONTROLLER_MAX; lia. }
  split; [exact Hos|].
  apply (C8_registry_within_capacity (friendly sample_bus) _ Hos).
Defined.

(** ** Counting under concurrency *)

Lemma hits_cons p q l :
  hits p (q :: l) = ((if decide (q = p) then 1 else 0) + hits p l)%nat.
Proof. unfold hits. rewrite filter_cons. by case_decide. Qed.

Lemma hits_app p l1 l2 : hits p (l1 ++ l2) = (hits p l1 + hits p l2)%nat.
Proof. unfold hits. by rewrite filter_app, length_app. Qed.

Lemma hits_replicate p n : hits p (replicate n p) = n.
Proof.
  induction n as [|n IH]; [done|]. simpl replicate.
  rewrite hits_cons, IH. by rewrite decide_True.
Qed.

(** An interleaving is a rearrangement of all the interrupts. *)
Lemma interleaving_Permutation cpus sched :
  interleaving cpus sched → sched ≡ₚ concat cpus.
Proof.
  induction 1 as [cpus Hnil|before p cpu after sched _ IH].
  - induction Hnil as [|cpu cpus -> _ IH]; [done|]. by simpl.
  - rewrite concat_app in *. simpl in *.
    by rewrite IH, Permutation_middle.
Qed.

Lemma interleaving_hits cpus sched p :
  interleaving cpus sched → hits p sched = hits p (concat cpus).
Proof.
  intros H%interleaving_Permutation. unfold hits. by rewrite H.
Qed.

(** One processor after the other is an interleaving. *)
Lemma interleaving_two cpu1 cpu2 : interleaving [cpu1; cpu2] (cpu1 ++ cpu2).
Proof.
  induction cpu1 as [|p cpu1 IH].
  - induction cpu2 as [|p cpu2 IH].
    + constructor. by repeat constructor.
    + apply (interleaving_step [[]] p cpu2 []), IH.
  - apply (interleaving_step [] p cpu1 [cpu2]), IH.
Qed.

(** However the handlers are scheduled they all return, and a record's
    counter has grown by the number of interrupts for it, modulo 2^32. *)
Lemma run_handlers_counter (sched : list Z) (s : state) (p : Z)
    (c : i2c_controller) :
  Forall (λ q, 0 ≤ q < I2C_CONTROLLER_MAX) sched →
  length (i2c_controller_list s) = Z.to_nat I2C_CONTROLLER_MAX →
  0 ≤ p → i2c_controller_list s !! Z.to_nat p = Some c →
  INT_MIN ≤ isr_count c ≤ INT_MAX →
  ∃ s' c', run_handlers sched s = Done tt s' ∧
           i2c_controller_list s' !! Z.to_nat p = Some c' ∧
           irq c' = irq c ∧
           atomic_read c' = int_wrap (isr_count c + Z.of_nat (hits p sched)).
Proof.
  intros Hvalid. revert s c.
  induction Hvalid as [|q sched Hq _ IH]; intros s c Hlen Hp Hc Hrange.
  - exists s, c. repeat split; [done|]. unfold hits. simpl.
    by rewrite Z.add_0_r, int_wrap_small.
  - destruct (lookup_lt_is_Some_2 (i2c_controller_list s) (Z.to_nat q))
      as [cq Hcq]; [lia|].
    pose proof (irq_handler_spec s q cq (proj1 Hq) Hcq) as Hrun.
    set (s1 := set_list _ s) in Hrun.
    cbn [run_handlers]. rewrite (bind_Done _ _ _ _ _ Hrun).
    rewrite hits_cons. destruct (decide (q = p)) as [->|Hne].
    + assert (cq = c) as -> by congruence.
      destruct (IH s1 (I2c_controller (irq c) (int_wrap (isr_count c + 1))))
        as (s' & c' & Hrun' & Hc' & Hirq & Hcount).
      * subst s1. simpl. by rewrite length_insert.
      * done.
      * subst s1. simpl. apply list_lookup_insert_eq. lia.
      * apply int_wrap_range.
      * exists s', c'. repeat split; [done..|].
        rewrite Hcount. simpl. rewrite int_wrap_add. f_equal. lia.
    + destruct (IH s1 c) as (s' & c' & Hrun' & Hc' & Hirq & Hcount).
      * subst s1. simpl. by rewrite length_insert.
      * done.
      * subst s1. simpl. rewrite list_lookup_insert_ne; [done|]. lia.
      * done.
      * exists s', c'. repeat split; [done..|].
        rewrite Hcount. f_equal.
Qed.

(** C9 as stated fails for the 32-bit counter.  Two processors take 2^30
    interrupts each for the first controller, whose counter is 0; after the
    2^31 increments the counter is -2^31. *)
Lemma C9_counter_wraps :
  interleaving [replicate (Z.to_nat (2 ^ 30)) 0; replicate (Z.to_nat (2 ^ 30)) 0]
    (replicate (Z.to_nat (2 ^ 30)) 0 ++ replicate (Z.to_nat (2 ^ 30)) 0) ∧
  Z.of_nat (hits 0 (replicate (Z.to_nat (2 ^ 30)) 0 ++
                    replicate (Z.to_nat (2 ^ 30)) 0)) = 2 ^ 31 ∧
  ∃ s' c',
    run_handlers (replicate (Z.to_nat (2 ^ 30)) 0 ++
                  replicate (Z.to_nat (2 ^ 30)) 0) loaded_two = Done tt s' ∧
    i2c_controller_list s' !! 0%nat = Some c' ∧
    atomic_read c' = - 2 ^ 31.
Proof.
  remember (Z.to_nat (2 ^ 30)) as n eqn:Hn.
  assert (Z.of_nat (hits 0 (replicate n 0 ++ replicate n 0)) = 2 ^ 31) as Hhits.
  { rewrite hits_app, hits_replicate, Hn, Nat2Z.inj_add, Z2Nat.id by lia.
    reflexivity. }
  split; [apply interleaving_two|]. split; [exact Hhits|].
  destruct (run_handlers_counter (replicate n 0 ++ replicate n 0) loaded_two 0
              (I2c_controller 27 0))
    as (s' & c' & Hrun & Hc' & _ & Hcount).
  - apply Forall_app. split; apply Forall_replicate;
      unfold I2C_CONTROLLER_MAX; lia.
  - reflexivity.
  - lia.
  - reflexivity.
  - unfold INT_MIN, INT_MAX. simpl. lia.
  - exists s', c'. split; [exact Hrun|]. split; [exact Hc'|].
    rewrite Hcount, Hhits. reflexivity.
Qed.

(** C9, amended.  Whatever the processors and the interleaving of their
    interrupts, every handler returns, and a counter that was 0 ends as the
    number N of interrupts for its record, reduced to a 32-bit [int]: no
    increment is lost, and the counter is exactly N as long as N is at most
    INT_MAX. *)
Theorem C9_no_increment_is_lost (cpus : list (list Z)) (sched : list Z)
    (s : state) (p : Z) (c : i2c_controller) :
  interleaving cpus sched →
  Forall (λ q, 0 ≤ q < I2C_CONTROLLER_MAX) (concat cpus) →
  length (i2c_controller_list s) = Z.to_nat I2C_CONTROLLER_MAX →
  0 ≤ p → i2c_controller_list s !! Z.to_nat p = Some c → isr_count c = 0 →
  ∃ s' c', run_handlers sched s = Done tt s' ∧
           i2c_controller_list s' !! Z.to_nat p = Some c' ∧
           atomic_read c' = int_wrap (Z.of_nat (hits p (concat cpus))) ∧
           (Z.of_nat (hits p (concat cpus)) ≤ INT_MAX →
            atomic_read c' = Z.of_nat (hits p (concat cpus))).
Proof.
  intros Hil Hvalid Hlen Hp Hc H0.
  destruct (run_handlers_counter sched s p c)
    as (s' & c' & Hrun & Hc' & _ & Hcount); try done.
  - by rewrite (interleaving_Permutation _ _ Hil).
  - rewrite H0. unfold INT_MIN, INT_MAX. lia.
  - exists s', c'. rewrite Hcount, H0, (interleaving_hits _ _ _ Hil).
    repeat split; [done..|]. intros Hmax.
    apply int_wrap_small. unfold INT_MIN. lia.
Qed.

(** Two processors, three interrupts for the controller of index 1 and one
    for that of index 0, in one of the interleavings. *)
Lemma C9_no_increment_is_lost_witness :
  interleaving [[1; 0]; [1; 1]] [1; 1; 0; 1] ∧
  ∃ s' c', run_handlers [1; 1; 0; 1] loaded_two = Done tt s' ∧
           i2c_controller_list s' !! Z.to_nat 1 = Some c' ∧
           atomic_read c' = int_wrap (Z.of_nat (hits 1 (concat [[1; 0]; [1; 1]]))) ∧
           (Z.of_nat (hits 1 (concat [[1; 0]; [1; 1]])) ≤ INT_MAX →
            atomic_read c' = Z.of_nat (hits 1 (concat [[1; 0]; [1; 1]]))).
Proof.
  assert (interleaving [[1; 0]; [1; 1]] [1; 1; 0; 1]) as Hil.
  { apply (interleaving_step [] 1 [0] [[1; 1]]).
    apply (interleaving_step [[0]] 1 [1] []).
    apply (interleaving_step [] 0 [] [[1]]).
    apply (interleaving_step [[]] 1 [] []).
    constructor. by repeat constructor. }
  split; [exact Hil|].
  apply (C9_no_increment_is_lost _ _ loaded_two 1 (I2c_controller 40 0) Hil).
  - repeat constructor; unfold I2C_CONTROLLER_MAX; lia.
  - reflexivity.
  - lia.
  - reflexivity.
  - reflexivity.
Defined.

(** * Further properties of the module *)

(** ** Load, then unload *)

Lemma handles_index (s : state) (j : nat) (a : Z * Z) :
  handles s !! j = Some a → a.2 = Z.of_nat j.
Proof.
  unfold handles. rewrite lookup_handles_from.
  destruct (registry s !! j); [|done]. intros [= <-]. simpl. lia.
Qed.

Lemma NoDup_handles (s : state) : NoDup (handles s).
Proof.
  apply NoDup_alt. intros i j a Hi%handles_index Hj%handles_index. lia.
Qed.

(** [mod_exit] in a state where every entry is hooked. *)
Lemma mod_exit_hooked (s : state) :
  wf s → irq_actions s = handles s →
  ∃ s', mod_exit s = Done tt s' ∧ same_data s s' ∧ unloaded s' ∧
        calls s' = calls s ++ map (λ a, FreeIrq a.1 a.2 true) (handles s)
                     ++ [ProcRemove].
Proof.
  intros Hwf Hact.
  destruct (release_interrupts_spec (i2c_controller_count s) s
              (length (handles s)) Hwf)
    as (s1 & Hrun & Hd & Hp & Ha & Hc).
  { by rewrite take_ge. }
  assert (map (free_call (length (handles s))) (handles s)
          = map (λ a, FreeIrq a.1 a.2 true) (handles s)) as Hfound.
  { apply Forall_fmap_ext, Forall_lookup. intros j a Hj.
    pose proof (lookup_lt_Some _ _ _ Hj) as Hlt.
    apply handles_index in Hj. unfold free_call. f_equal.
    apply bool_decide_eq_true_2. lia. }
  rewrite Hfound in Hc. eexists. unfold mod_exit.
  rewrite (bind_Done get_count _ s _ s eq_refl).
  rewrite (bind_Done _ _ _ _ _ Hrun).
  split; [reflexivity|]. split; [|split].
  - destruct Hd as (Hl & Hn & Hq). by repeat split.
  - by split.
  - simpl. by rewrite Hc, <- app_assoc.
Qed.

(** What a load that returned 0 has left. *)
Lemma mod_init_success (pf : platform) (s : state) :
  mod_init pf boot = Done 0 s →
  let ms := filter wanted (pci_bus pf) in
  (length ms < 16)%nat ∧ same_data (detected ms) s ∧ wf s ∧ active s ∧
  registry s = map new_controller ms ∧
  calls s = ProcCreate true :: map (request_call 0) (handles s).
Proof.
  intros Hrun ms.
  destruct (mod_init_boot pf) as (rc & s' & Hrun' & Hd & Hcases).
  rewrite Hrun in Hrun'. injection Hrun' as <- <-. fold ms in Hd, Hcases.
  destruct Hcases as [(Hrc & _)|[(Hrc & _)|
    [(k & a & e & _ & _ & Hrc & _)|(_ & Hlen & Ha & Hc)]]]; try done.
  split; [done|]. split; [done|].
  split; [by eapply same_data_wf, wf_detected|]. split; [done|].
  split.
  - unfold registry. destruct Hd as (-> & -> & _).
    fold (registry (detected ms)).
    rewrite registry_detected, take_ge; [done|].
    unfold I2C_CONTROLLER_MAX. lia.
  - by rewrite (same_data_handles _ _ Hd), Hc.
Qed.

(** X1.  A load that succeeded followed by the unload leaves nothing of the
    module in the kernel: no handler is registered and the /proc entry is
    gone.  The calls of the whole cycle are the creation of the entry, one
    granted [request_irq] per entry of the registry, one [free_irq] per
    entry, for the same line and context, in the same order and each
    finding its handler, and the removal of the entry. *)
Theorem X1_load_then_unload (pf : platform) (s : state) :
  mod_init pf boot = Done 0 s →
  ∃ s', mod_exit s = Done tt s' ∧ unloaded s' ∧ same_data s s' ∧
        calls s' = ProcCreate true ::
                   map (request_call 0) (handles s) ++
                   map (λ a, FreeIrq a.1 a.2 true) (handles s) ++
                   [ProcRemove].
Proof.
  intros (_ & _ & Hwf & [Hact _] & _ & Hc)%mod_init_success.
  destruct (mod_exit_hooked s Hwf Hact) as (s' & Hrun & Hd & Hu & Hc').
  exists s'. repeat (split; [done|]).
  by rewrite Hc', Hc.
Qed.

Lemma X1_load_then_unload_witness :
  mod_init (friendly sample_bus) boot = Done 0 (detected_hooked sample_bus) ∧
  ∃ s', mod_exit (detected_hooked sample_bus) = Done tt s' ∧ unloaded s' ∧
        same_data (detected_hooked sample_bus) s' ∧
        calls s' = [ ProcCreate true;
                     RequestIrq 27 IRQF_SHARED 0 0;
                     RequestIrq 40 IRQF_SHARED 1 0;
                     RequestIrq 27 IRQF_SHARED 2 0;
                     FreeIrq 27 0 true; FreeIrq 40 1 true; FreeIrq 27 2 true;
                     ProcRemove ].
Proof.
  assert (mod_init (friendly sample_bus) boot
            = Done 0 (detected_hooked sample_bus)) as Hrun by (by vm_compute).
  split; [exact Hrun|].
  apply (X1_load_then_unload (friendly sample_bus) _ Hrun).
Defined.

(** ** Discovery on a crowded bus *)



(** ** Hooking *)

(** X3.  On a registry none of whose entries is hooked, [hook_interrupts]
    returns 0 exactly when the platform grants the line of every entry, and
    a negative errno otherwise.  When it returns 0 it has called
    [request_irq] once per entry, in the order of the registry, with
    IRQF_SHARED and the entry as context, it has called nothing else, and
    exactly these handlers are registered. *)
Theorem X3_hook_succeeds_iff_all_granted (pf : platform) (s : state) :
  wf s → irq_actions s = [] →
  ∃ rc s', hook_interrupts pf s = Done rc s' ∧ rc ≤ 0 ∧
    (rc = 0 ↔ Forall (λ a, refused pf a = None) (handles s)) ∧
    (rc = 0 →
     irq_actions s' = handles s ∧
     calls s' = calls s ++
                map (λ a, RequestIrq a.1 IRQF_SHARED a.2 0) (handles s)).
Proof.
  intros Hwf Hact.
  destruct (hook_interrupts_spec pf s Hwf Hact)
    as (rc & s' & Hrun & _ & _ & Hcases).
  exists rc, s'. split; [done|].
  destruct Hcases as [(-> & Hall & Ha & Hc)|
                      (k & a & e & Hk & He & _ & -> & _)].
  - split; [done|]. split; [done|]. done.
  - split; [lia|]. split; [|done]. split; [done|].
    intros Hall. rewrite Forall_lookup in Hall.
    specialize (Hall k a Hk). simpl in Hall. congruence.
Qed.

Lemma X3_hook_succeeds_iff_all_granted_witness :
  wf (detected (filter wanted sample_bus)) ∧
  irq_actions (detected (filter wanted sample_bus)) = [] ∧
  ∃ rc s', hook_interrupts (busy_at 2 sample_bus)
             (detected (filter wanted sample_bus)) = Done rc s' ∧ rc ≤ 0 ∧
    (rc = 0 ↔ Forall (λ a, refused (busy_at 2 sample_bus) a = None)
                (handles (detected (filter wanted sample_bus)))) ∧
    (rc = 0 →
     irq_actions s' = handles (detected (filter wanted sample_bus)) ∧
     calls s' = calls (detected (filter wanted sample_bus)) ++
                map (λ a, RequestIrq a.1 IRQF_SHARED a.2 0)
                  (handles (detected (filter wanted sample_bus)))).
Proof.
  split; [apply wf_detected|]. split; [reflexivity|].
  apply (X3_hook_succeeds_iff_all_granted (busy_at 2 sample_bus) _
           (wf_detected _) eq_refl).
Defined.

(** ** A machine without the controllers *)

(** X4.  On a bus with no wanted device the load succeeds as soon as the
    /proc entry can be created: no interrupt is requested, a read of the
    entry gives no text, and the unload only removes the entry. *)
Theorem X4_nothing_to_hook (pf : platform) :
  filter wanted (pci_bus pf) = [] → proc_ok pf = true →
  ∃ s s', mod_init pf boot = Done 0 s ∧
          i2c_controller_count s = 0 ∧ irq_actions s = [] ∧
          calls s = [ProcCreate true] ∧
          proc_show s = Done 0 s ∧
          mod_exit s = Done tt s' ∧ unloaded s' ∧
          calls s' = [ProcCreate true; ProcRemove].
Proof.
  intros Hnone Hproc.
  destruct (mod_init_boot pf) as (rc & s & Hrun & Hd & Hcases).
  rewrite Hnone in Hd, Hcases.
  assert (rc = 0 ∧ s = State (filled []) 0 [] true "" [ProcCreate true])
    as [-> ->].
  { destruct Hcases as [(_ & Hlen & _)|[(_ & Hno & _)|
      [(k & a & e & Hk & _)|(-> & _ & [Ha Hp] & Hc)]]].
    - simpl in Hlen. lia.
    - congruence.
    - done.
    - split; [done|]. rewrite (same_data_handles _ _ Hd) in Ha.
      destruct Hd as (Hl & Hn & Hq). destruct s; simpl in *. by subst. }
  eexists _, _. split; [exact Hrun|].
  repeat split; by vm_compute.
Qed.

(** The sample bus without its three controllers. *)
Lemma X4_nothing_to_hook_witness :
  filter wanted (pci_bus (friendly (drop 1 (take 3 sample_bus)))) = [] ∧
  proc_ok (friendly (drop 1 (take 3 sample_bus))) = true ∧
  ∃ s s', mod_init (friendly (drop 1 (take 3 sample_bus))) boot = Done 0 s ∧
          i2c_controller_count s = 0 ∧ irq_actions s = [] ∧
          calls s = [ProcCreate true] ∧
          proc_show s = Done 0 s ∧
          mod_exit s = Done tt s' ∧ unloaded s' ∧
          calls s' = [ProcCreate true; ProcRemove].
Proof.
  assert (filter wanted (pci_bus (friendly (drop 1 (take 3 sample_bus)))) = [])
    as Hnone by (by vm_compute).
  split; [exact Hnone|]. split; [reflexivity|].
  apply (X4_nothing_to_hook _ Hnone eq_refl).
Defined.

(** ** Interrupts in any order *)

Lemma bump_iter (n : nat) (c : Z) :
  INT_MIN ≤ c ≤ INT_MAX → Nat.iter n bump c = int_wrap (c + Z.of_nat n).
Proof.
  intros Hc. induction n as [|n IH].
  - simpl. by rewrite Z.add_0_r, int_wrap_small.
  - rewrite Nat.iter_succ, IH. unfold bump.
    rewrite int_wrap_add. f_equal. lia.
Qed.

(** The array after the handlers of [sched] have run, in whatever order:
    every record has been counted, nothing else has changed. *)
Lemma run_handlers_state (sched : list Z) (s : state) :
  Forall valid_context sched →
  length (i2c_controller_list s) = Z.to_nat I2C_CONTROLLER_MAX →
  run_handlers sched s =
    Done tt (set_list (imap (counted sched) (i2c_controller_list s)) s).
Proof.
  intros Hvalid. revert s.
  induction Hvalid as [|q sched Hq _ IH]; intros s Hlen.
  - simpl. unfold ret. f_equal. destruct s. unfold set_list. simpl. f_equal.
    apply list_eq. intros i. rewrite list_lookup_imap.
    destruct (_ !! i) as [[]|]; done.
  - destruct Hq as [Hq0 Hq16].
    destruct (lookup_lt_is_Some_2 (i2c_controller_list s) (Z.to_nat q))
      as [cq Hcq]; [lia|].
    cbn [run_handlers].
    rewrite (bind_Done _ _ _ _ _ (irq_handler_spec s q cq Hq0 Hcq)).
    rewrite IH by (simpl; by rewrite length_insert).
    f_equal. unfold set_list. simpl. f_equal.
    apply list_eq. intros i. rewrite !list_lookup_imap.
    destruct (decide (i = Z.to_nat q)) as [->|Hne].
    + rewrite list_lookup_insert_eq by lia. rewrite Hcq. simpl.
      unfold counted. simpl. rewrite Z2Nat.id, hits_cons by done.
      rewrite decide_True by done. f_equal. f_equal.
      change (int_wrap (isr_count cq + 1)) with (bump (isr_count cq)).
      by rewrite <- Nat.iter_succ_r.
    + rewrite list_lookup_insert_ne by done.
      destruct (_ !! i) as [c|]; [|done]. simpl. unfold counted.
      rewrite hits_cons, decide_False by lia. done.
Qed.

(** X5.  The handlers of any sequence of interrupts all return, and the
    state they leave does not depend on the order of the interrupts: two
    sequences with the same interrupts, however rearranged, end in the same
    state, in which only counters have changed. *)
Theorem X5_interrupt_order_is_irrelevant (sched sched' : list Z) (s : state) :
  Forall valid_context sched →
  length (i2c_controller_list s) = Z.to_nat I2C_CONTROLLER_MAX →
  sched ≡ₚ sched' →
  ∃ s', run_handlers sched s = Done tt s' ∧
        run_handlers sched' s = Done tt s' ∧
        map irq (i2c_controller_list s') = map irq (i2c_controller_list s) ∧
        i2c_controller_count s' = i2c_controller_count s ∧
        irq_actions s' = irq_actions s ∧ proc_entry s' = proc_entry s ∧
        seq_file s' = seq_file s ∧ calls s' = calls s.
Proof.
  intros Hvalid Hlen Hperm.
  assert (Forall valid_context sched') as Hvalid' by (by rewrite <- Hperm).
  eexists. split; [by apply run_handlers_state|].
  split.
  - rewrite run_handlers_state by done. do 2 f_equal.
    apply imap_ext. intros i c _. unfold counted. f_equal. f_equal.
    unfold hits. by rewrite Hperm.
  - simpl. repeat split.
    apply list_eq. intros i.
    change (map irq) with (fmap (M := list) irq).
    rewrite !list_lookup_fmap, list_lookup_imap.
    by destruct (_ !! i).
Qed.

Lemma X5_interrupt_order_is_irrelevant_witness :
  Forall valid_context [1; 0; 1] ∧
  length (i2c_controller_list loaded_two) = Z.to_nat I2C_CONTROLLER_MAX ∧
  [1; 0; 1] ≡ₚ [0; 1; 1] ∧
  ∃ s', run_handlers [1; 0; 1] loaded_two = Done tt s' ∧
        run_handlers [0; 1; 1] loaded_two = Done tt s' ∧
        map irq (i2c_controller_list s')
          = map irq (i2c_controller_list loaded_two) ∧
        i2c_controller_count s' = i2c_controller_count loaded_two ∧
        irq_actions s' = irq_actions loaded_two ∧
        proc_entry s' = proc_entry loaded_two ∧
        seq_file s' = seq_file loaded_two ∧ calls s' = calls loaded_two.
Proof.
  assert (Forall valid_context [1; 0; 1]) as Hvalid.
  { repeat constructor; unfold I2C_CONTROLLER_MAX; lia. }
  assert ([1; 0; 1] ≡ₚ [0; 1; 1]) as Hperm by apply perm_swap.
  split; [exact Hvalid|]. split; [reflexivity|]. split; [exact Hperm|].
  apply (X5_interrupt_order_is_irrelevant _ _ loaded_two Hvalid eq_refl Hperm).
Defined.

(** ** Counting, then reading *)

Lemma take_imap {A B} (f : nat → A → B) (n : nat) (l : list A) :
  take n (imap f l) = imap f (take n l).
Proof.
  apply list_eq. intros i. rewrite list_lookup_imap.
  destruct (decide (i < n)%nat).
  - by rewrite !lookup_take_lt, list_lookup_imap by done.
  - by rewrite !lookup_take_ge by lia.
Qed.

Lemma hits_le_length p l : (hits p l ≤ length l)%nat.
Proof. apply length_filter. Qed.

(** X6.  After a load that succeeded and any sequence of interrupts, fewer
    than 2^31 of them, a read of the /proc entry gives one line for every
    wanted device of the bus, in the order of the bus, with the device's
    line and the number of interrupts handled for it. *)
Theorem X6_report_shows_the_interrupts (pf : platform) (sched : list Z)
    (s : state) :
  mod_init pf boot = Done 0 s →
  Forall valid_context sched → Z.of_nat (length sched) ≤ INT_MAX →
  ∃ s1 s2,
    run_handlers sched s = Done tt s1 ∧ proc_show s1 = Done 0 s2 ∧
    seq_file s2 =
      report (imap (λ i d, I2c_controller (int_wrap (dev_irq d))
                             (Z.of_nat (hits (Z.of_nat i) sched)))
                (filter wanted (pci_bus pf))).
Proof.
  intros (Hlen & Hd & Hwf & _ & Hreg & _)%mod_init_success Hvalid Hmax.
  set (ms := filter wanted (pci_bus pf)) in *.
  pose proof (run_handlers_state sched s Hvalid (proj1 Hwf)) as Hrun.
  set (s1 := set_list _ s) in Hrun.
  assert (wf s1) as Hwf1.
  { destruct Hwf as [Hl Hn]. split; [|done]. simpl. by rewrite length_imap. }
  eexists s1, _. split; [exact Hrun|]. split; [apply proc_show_spec, Hwf1|].
  destruct Hd as (_ & _ & Hseq). simpl in *. rewrite Hseq.
  change ("" +:+ ?x) with x. f_equal.
  unfold registry, s1. simpl. rewrite take_imap.
  fold (registry s). rewrite Hreg.
  change (map new_controller ms) with (new_controller <$> ms).
  rewrite imap_fmap. apply imap_ext. intros i d _. simpl.
  unfold counted, new_controller. simpl. f_equal.
  rewrite bump_iter by (unfold INT_MIN, INT_MAX; lia).
  apply int_wrap_small.
  pose proof (hits_le_length (Z.of_nat i) sched). unfold INT_MIN. lia.
Qed.

Lemma X6_report_shows_the_interrupts_witness :
  mod_init (friendly sample_bus) boot = Done 0 (detected_hooked sample_bus) ∧
  Forall valid_context [2; 0; 2; 2] ∧
  Z.of_nat (length [2; 0; 2; 2]) ≤ INT_MAX ∧
  ∃ s1 s2,
    run_handlers [2; 0; 2; 2] (detected_hooked sample_bus) = Done tt s1 ∧
    proc_show s1 = Done 0 s2 ∧
    seq_file s2 = "IRQ 27: 1" +:+ newline +:+ "IRQ 40: 0" +:+ newline +:+
                  "IRQ 27: 3" +:+ newline.
Proof.
  assert (mod_init (friendly sample_bus) boot
            = Done 0 (detected_hooked sample_bus)) as Hrun by (by vm_compute).
  assert (Forall valid_context [2; 0; 2; 2]) as Hvalid.
  { repeat constructor; unfold I2C_CONTROLLER_MAX; lia. }
  assert (Z.of_nat (length [2; 0; 2; 2]) ≤ INT_MAX) as Hmax
    by (unfold INT_MAX; simpl; lia).
  split; [exact Hrun|]. split; [exact Hvalid|]. split; [exact Hmax|].
  destruct (X6_report_shows_the_interrupts _ _ _ Hrun Hvalid Hmax)
    as (s1 & s2 & H1 & H2 & Hseq).
  exists s1, s2. split; [exact H1|]. split; [exact H2|].
  rewrite Hseq. by vm_compute.
Defined.

(** ** The lines the handlers are on *)

(** X7.  After a load that succeeded, the handlers registered are, in the
    order of the bus, one per wanted device, on the very line of the
    device, for every line an [unsigned int] can hold (the passage through
    the [int] field of the record loses nothing), each with the entry of
    the device as context. *)
Theorem X7_handlers_on_the_devices_lines (pf : platform) (s : state) :
  mod_init pf boot = Done 0 s →
  Forall line_ok (filter wanted (pci_bus pf)) →
  irq_actions s =
    imap (λ i d, (dev_irq d, Z.of_nat i)) (filter wanted (pci_bus pf)).
Proof.
  intros (_ & _ & _ & [Hact _] & Hreg & _)%mod_init_success Hok.
  rewrite Hact. unfold handles. rewrite Hreg.
  apply list_eq. intros i.
  rewrite lookup_handles_from, list_lookup_imap.
  change (map new_controller) with (fmap (M := list) new_controller).
  rewrite list_lookup_fmap.
  destruct (filter wanted (pci_bus pf) !! i) as [d|] eqn:Hd; [|done].
  simpl. f_equal. f_equal.
  rewrite uint_wrap_int_wrap. apply uint_wrap_small.
  by apply (Forall_lookup_1 _ _ _ _ Hok Hd).
Qed.

(** A controller on the line 2^31, which is negative in the record. *)
Lemma X7_handlers_on_the_devices_lines_witness :
  mod_init (friendly [i2c 27; i2c (2 ^ 31)]) boot
    = Done 0 (detected_hooked [i2c 27; i2c (2 ^ 31)]) ∧
  Forall line_ok (filter wanted (pci_bus (friendly [i2c 27; i2c (2 ^ 31)]))) ∧
  registry (detected_hooked [i2c 27; i2c (2 ^ 31)])
    = [I2c_controller 27 0; I2c_controller (- 2 ^ 31) 0] ∧
  irq_actions (detected_hooked [i2c 27; i2c (2 ^ 31)])
    = [(27, 0); (2 ^ 31, 1)].
Proof.
  assert (mod_init (friendly [i2c 27; i2c (2 ^ 31)]) boot
            = Done 0 (detected_hooked [i2c 27; i2c (2 ^ 31)])) as Hrun
    by (by vm_compute).
  assert (Forall line_ok
            (filter wanted (pci_bus (friendly [i2c 27; i2c (2 ^ 31)]))))
    as Hok.
  { assert (filter wanted (pci_bus (friendly [i2c 27; i2c (2 ^ 31)]))
            = [i2c 27; i2c (2 ^ 31)]) as -> by (by vm_compute).
    repeat constructor; unfold line_ok; simpl; lia. }
  split; [exact Hrun|]. split; [exact Hok|]. split; [by vm_compute|].
  rewrite (X7_handlers_on_the_devices_lines _ _ Hrun Hok). by vm_compute.
Defined.

(** ** The handlers a load leaves *)

(** X8.  Whatever the machine, the handlers registered when [mod_init]
    returns are pairwise distinct, also for controllers that share a line
    (their contexts differ), and there are at most fifteen of them: none
    after a failure, one per wanted device after a success. *)
Theorem X8_handlers_distinct_at_most_fifteen (pf : platform) :
  ∃ rc s', mod_init pf boot = Done rc s' ∧
    NoDup (irq_actions s') ∧ (length (irq_actions s') ≤ 15)%nat ∧
    (rc ≠ 0 → irq_actions s' = []) ∧
    (rc = 0 →
     length (irq_actions s') = length (filter wanted (pci_bus pf))).
Proof.
  destruct (mod_init_boot pf) as (rc & s' & Hrun & Hd & Hcases).
  exists rc, s'. split; [done|].
  assert (irq_actions s' = [] ∧ rc ≠ 0 ∨
          rc = 0 ∧ (length (filter wanted (pci_bus pf)) < 16)%nat ∧
          irq_actions s' = handles s') as [[Hnil Hrc]|(-> & Hlen & Hact)].
  { destruct Hcases as [(-> & _ & [Ha _] & _)|[(-> & _ & [Ha _] & _)|
      [(k & a & e & _ & _ & -> & [Ha _] & _)|(-> & Hlen & [Ha _] & _)]]];
      [by left..|by right]. }
  - rewrite Hnil. split; [constructor|]. split; [simpl; lia|]. done.
  - assert (length (handles s') = length (filter wanted (pci_bus pf)))
      as Hsame.
    { rewrite (same_data_handles _ _ Hd), length_handles by apply wf_detected.
      simpl. rewrite Nat2Z.id, length_take. unfold I2C_CONTROLLER_MAX. lia. }
    rewrite Hact. split; [apply NoDup_handles|].
    split; [lia|]. done.
Qed.

(** ** Discovery does not start afresh *)

(** X9.  [i2c_controller_detect] does not reset the list: run on a second
    bus in the state a first, successful discovery has left, it appends,
    and the outcome is that of one discovery from the zeroed statics on the
    devices of the first bus followed by those of the second. *)
Theorem X9_discovery_appends (pf1 pf2 : platform) (s : state) :
  i2c_controller_detect pf1 boot = Done 0 s →
  i2c_controller_detect pf2 s
    = i2c_controller_detect (behind (pci_bus pf1) pf2) boot.
Proof.
  rewrite !i2c_controller_detect_boot. intros [= Hrc <-].
  set (ms1 := filter wanted (pci_bus pf1)) in *.
  destruct (detect_rc_cases ms1) as [[_ Hlen]|[Hno _]];
    [|by rewrite Hno in Hrc].
  simpl. rewrite filter_app. fold ms1.
  unfold i2c_controller_detect. rewrite detect_loop_append_all.
  - simpl. rewrite filter_pci_scan.
    rewrite (append_all_spec _ ms1).
    + reflexivity.
    + unfold I2C_CONTROLLER_MAX. lia.
    + unfold detected. cbn [i2c_controller_list].
      by rewrite take_ge by (unfold I2C_CONTROLLER_MAX; lia).
    + unfold detected. cbn [i2c_controller_count].
      by rewrite take_ge by (unfold I2C_CONTROLLER_MAX; lia).
  - apply length_pci_scan.
  - intros d r. apply pci_scan_head.
Qed.

(** Two buses of two controllers each give the registry of the four. *)
Lemma X9_discovery_appends_witness :
  i2c_controller_detect (friendly [i2c 27; i2c 40]) boot
    = Done 0 (detected [i2c 27; i2c 40]) ∧
  i2c_controller_detect (friendly [i2c 5; i2c 9]) (detected [i2c 27; i2c 40])
    = Done 0 (detected [i2c 27; i2c 40; i2c 5; i2c 9]).
Proof.
  assert (i2c_controller_detect (friendly [i2c 27; i2c 40]) boot
            = Done 0 (detected [i2c 27; i2c 40])) as Hrun by (by vm_compute).
  split; [exact Hrun|].
  rewrite (X9_discovery_appends _ (friendly [i2c 5; i2c 9]) _ Hrun).
  by vm_compute.
Defined.

(** ** Release, whatever is hooked *)

Lemma remove_action_filter (a : Z * Z) (l : list (Z * Z)) :
  NoDup l → remove_action a l = filter (λ b, b ≠ a) l.
Proof.
  induction 1 as [|b l Hb _ IH]; [done|]. simpl.
  destruct (decide (a = b)) as [<-|Hne].
  - rewrite filter_cons_False by (by intros ?).
    clear IH. induction l as [|c l IH]; [done|].
    apply not_elem_of_cons in Hb as [Hc Hl].
    by rewrite filter_cons_True, <- IH by done.
  - by rewrite filter_cons_True, IH by done.
Qed.

(** [release_interrupts] when the actions registered are any of the
    handles of the registry, each once, in any order. *)
Lemma release_interrupts_any (count : Z) (s0 : state) :
  wf s0 → NoDup (irq_actions s0) → irq_actions s0 ⊆ handles s0 →
  ∃ s', release_interrupts count s0 = Done tt s' ∧
        same_data s0 s' ∧ proc_entry s' = proc_entry s0 ∧
        irq_actions s' = [] ∧
        calls s' = calls s0 ++
                   map (free_call_in (irq_actions s0)) (handles s0).
Proof.
  intros Hwf Hnodup Hsub.
  set (n := i2c_controller_count s0). set (hs := handles s0).
  set (acts := irq_actions s0).
  pose (I := λ (i : Z) (s : state),
    same_data s0 s ∧ proc_entry s = proc_entry s0 ∧
    irq_actions s = filter (λ a, a ∉ take (Z.to_nat i) hs) acts ∧
    calls s = calls s0 ++ map (free_call_in acts) (take (Z.to_nat i) hs)).
  destruct (for_controllers_inv n I (λ _ _, False)
              (λ i, do c <- controller i;
                    run free_irq (uint_wrap (irq c)) i;
                    ret None)) with (fuel := Z.to_nat n) (i := 0) (s := s0)
    as (r & s' & Hrun & Hpost).
  - count_bounds.
  - intros i s (Hd & _). by destruct Hd as (_ & -> & _).
  - intros i s Hi (Hd & Hp & Ha & Hc).
    destruct (controller_live s i) as (c & Hctl & _ & Hh).
    { by eapply same_data_wf. }
    { destruct Hd as (_ & -> & _). done. }
    rewrite (same_data_handles _ _ Hd) in Hh. fold hs in Hh.
    set (a := (uint_wrap (irq c), i)) in *.
    assert (a ∉ take (Z.to_nat i) hs) as Hfresh.
    { intros (j & Hj & Hlt)%elem_of_take.
      pose proof (NoDup_handles s0) as Hnd. rewrite NoDup_alt in Hnd.
      specialize (Hnd _ _ _ Hj Hh). lia. }
    eexists None, _. rewrite (bind_Done _ _ _ _ _ Hctl).
    unfold bind, free_irq, ret. split; [reflexivity|]. unfold I. simpl.
    replace (Z.to_nat (i + 1)) with (S (Z.to_nat i)) by lia.
    rewrite (take_S_r _ _ _ Hh), Ha, Hc.
    split; [apply Hd|]. split; [done|]. split.
    + rewrite remove_action_filter by (by apply NoDup_filter).
      rewrite list_filter_filter. apply list_filter_iff. intros b.
      rewrite not_elem_of_app, list_elem_of_singleton. tauto.
    + rewrite map_app, <- app_assoc. simpl. do 3 f_equal.
      unfold free_call_in. f_equal. apply bool_decide_ext.
      rewrite list_elem_of_filter. tauto.
  - count_bounds.
  - lia.
  - unfold I. change (Z.to_nat 0) with 0%nat. rewrite take_0. simpl.
    rewrite app_nil_r. split; [apply same_data_refl|]. split; [done|].
    split; [|done]. fold acts. symmetry.
    clear. induction acts as [|b l IH]; [done|].
    rewrite filter_cons_True by apply not_elem_of_nil. by f_equal.
  - destruct r as [rc|]; [done|]. destruct Hpost as (Hd & Hp & Ha & Hc).
    exists s'. unfold release_interrupts.
    rewrite (bind_Done get_count _ s0 n s0 eq_refl).
    rewrite (bind_Done _ _ _ _ _ Hrun).
    pose proof (length_handles s0 Hwf) as Hlen. fold hs n in Hlen.
    rewrite take_ge in Ha, Hc by lia.
    split; [done|]. split; [done|]. split; [done|]. split; [|done].
    rewrite Ha. apply elem_of_nil_inv. intros b.
    rewrite list_elem_of_filter. intros [Hout Hin]. by apply Hout, Hsub.
Qed.

(** X10.  Whichever entries of the registry are hooked, each once and in
    whatever order they were registered, [release_interrupts] leaves none
    of them registered: it calls [free_irq] once for every entry of the
    registry, and the calls that find a handler to release are exactly
    those for the entries that were hooked. *)
Theorem X10_release_from_any_hooked_subset (count : Z) (s : state) :
  wf s → NoDup (irq_actions s) → irq_actions s ⊆ handles s →
  ∃ s', release_interrupts count s = Done tt s' ∧
        same_data s s' ∧ proc_entry s' = proc_entry s ∧
        irq_actions s' = [] ∧
        calls s' = calls s ++ map (free_call_in (irq_actions s)) (handles s).
Proof. apply release_interrupts_any. Qed.

Lemma X10_release_from_any_hooked_subset_witness :
  wf half_hooked ∧ NoDup (irq_actions half_hooked) ∧
  irq_actions half_hooked ⊆ handles half_hooked ∧
  ∃ s', release_interrupts 0 half_hooked = Done tt s' ∧
        irq_actions s' = [] ∧
        calls s' = [FreeIrq 27 0 true; FreeIrq 40 1 false; FreeIrq 27 2 true].
Proof.
  assert (wf half_hooked) as Hwf.
  { split; [reflexivity|]. simpl. unfold I2C_CONTROLLER_MAX. lia. }
  assert (NoDup (irq_actions half_hooked)) as Hnd.
  { apply NoDup_cons. split; [|apply NoDup_singleton].
    intros H%list_elem_of_singleton. discriminate H. }
  assert (irq_actions half_hooked ⊆ handles half_hooked) as Hsub.
  { assert (handles half_hooked = [(27, 0); (40, 1); (27, 2)]) as ->
      by (by vm_compute).
    intros a Ha. simpl in Ha. rewrite !elem_of_cons in *.
    rewrite elem_of_nil in Ha. tauto. }
  split; [exact Hwf|]. split; [exact Hnd|]. split; [exact Hsub|].
  destruct (X10_release_from_any_hooked_subset 0 half_hooked Hwf Hnd Hsub)
    as (s' & Hrun & _ & _ & Ha & Hc).
  exists s'. split; [exact Hrun|]. split; [exact Ha|].
  rewrite Hc. by vm_compute.
Defined.
